(** * A shallow embedding of the directory indexer

    Source: [___e.g.security-step-1-indexer.py].  The script walks a directory
    tree, filters entries through a substring ignore list and a hand-rolled
    [.gitignore] matcher, and accumulates a manifest of folder and file
    records.

    Python strings are modelled as [string], a sequence of characters with
    code points below 256; Python integers as [Z]; the [used_ids] set as a
    [gset string]; the exceptions that leave [scan_directory] as an error
    monad.  Messages printed on the way are not modelled. *)

From Stdlib Require Import ZArith Ascii String List Bool Lia.
From stdpp Require Import base gmap sets list strings.

Local Open Scope Z_scope.

(** ** Python [str] methods used by the script *)

Module PyStr.

(** [s.startswith(p)] *)
Definition startswith (p s : string) : bool := String.prefix p s.

(** [p in s] for strings: substring containment. *)
Fixpoint contains (p s : string) : bool :=
  String.prefix p s ||
  match s with
  | EmptyString => false
  | String _ s' => contains p s'
  end.

(** [s.endswith(c)] for a one-character suffix. *)
Fixpoint endswith (c : ascii) (s : string) : bool :=
  match s with
  | EmptyString => false
  | String a EmptyString => Ascii.eqb a c
  | String _ s' => endswith c s'
  end.

(** [s[1:]] *)
Definition tail (s : string) : string :=
  match s with
  | EmptyString => EmptyString
  | String _ s' => s'
  end.

(** [s[:-1]] *)
Fixpoint drop_last (s : string) : string :=
  match s with
  | EmptyString => EmptyString
  | String _ EmptyString => EmptyString
  | String a s' => String a (drop_last s')
  end.

(** [s.replace(old, new)] for a one-character [old]. *)
Fixpoint replace (old : ascii) (new : string) (s : string) : string :=
  match s with
  | EmptyString => EmptyString
  | String a s' =>
      if Ascii.eqb a old then new +:+ replace old new s'
      else String a (replace old new s')
  end.

(** Characters removed by [s.strip()]: those for which [str.isspace]
    holds, below code point 256 (tab, line feed, vertical tab, form feed,
    carriage return, the four separators 28..31, space, next line 133 and
    the no-break space 160). *)
Definition is_space (a : ascii) : bool :=
  let n := nat_of_ascii a in
  ((9 <=? n)%nat && (n <=? 13)%nat) || ((28 <=? n)%nat && (n <=? 32)%nat)
  || (n =? 133)%nat || (n =? 160)%nat.

Fixpoint lstrip (s : string) : string :=
  match s with
  | EmptyString => EmptyString
  | String a s' => if is_space a then lstrip s' else s
  end.

(** [rstrip] keeps a character when it is not a space or when something
    survives to its right. *)
Fixpoint rstrip (s : string) : string :=
  match s with
  | EmptyString => EmptyString
  | String a s' =>
      match rstrip s' with
      | EmptyString => if is_space a then EmptyString else String a EmptyString
      | r => String a r
      end
  end.

(** [s.strip()] *)
Definition strip (s : string) : string := rstrip (lstrip s).

(** Truthiness of a string: [if s:] *)
Definition truthy (s : string) : bool :=
  match s with EmptyString => false | _ => true end.

End PyStr.

(** ** [os.path.join] on POSIX, two arguments

    [posixpath.join(a, b)]: an absolute [b] replaces [a]; otherwise [b] is
    appended, with a separator unless [a] is empty or already ends in one. *)
Definition path_join (a b : string) : string :=
  if PyStr.startswith "/" b then b
  else if negb (PyStr.truthy a) || PyStr.endswith "/" a then a +:+ b
  else a +:+ "/" +:+ b.

(** ** The fragment of Python's [re] that the matcher's translation produces

    [is_ignored] builds a regular expression as text and hands it to
    [re.match].  When the ignore pattern holds no regex metacharacter other
    than [.], [*] and [?], the text consists of [\.] (a literal dot), [.*],
    [.] and ordinary characters, between [^] and [$].  [re_compile] reads
    exactly that fragment and answers [None] on anything else (where Python
    would apply further regex syntax or raise [re.error]).  What is proved
    of the matcher's verdicts is proved of the rules inside the fragment;
    [glob_rule_compiles] below shows that it holds every rule made of
    ordinary characters and [.], [*], [?]. *)
Module Re.

Inductive token :=
| TLit (c : ascii)   (* an ordinary character, or [\.] *)
| TAny               (* [.]: any character except a line feed *)
| TAnyStar.          (* [.*] *)

Definition newline : ascii := ascii_of_nat 10.

(** Characters with a meaning of their own in a Python regex. *)
Definition is_meta (c : ascii) : bool :=
  existsb (Ascii.eqb c)
    ["\"; "^"; "$"; "."; "*"; "+"; "?"; "{"; "}"; "["; "]"; "("; ")"; "|"]%char.

(** The body of the expression, up to the closing [$]. *)
Fixpoint parse_body (s : string) : option (list token) :=
  match s with
  | EmptyString => None
  | String "$" EmptyString => Some []
  | String "\" (String "." r) => cons (TLit ".") <$> parse_body r
  | String "." (String "*" r) => cons TAnyStar <$> parse_body r
  | String "." r => cons TAny <$> parse_body r
  | String c r => if is_meta c then None else cons (TLit c) <$> parse_body r
  end.

(** [re.compile] of an expression of the form [^body$]. *)
Definition re_compile (s : string) : option (list token) :=
  match s with
  | String "^" r => parse_body r
  | _ => None
  end.

(** [$] without [re.MULTILINE]: the end of the text, or just before a line
    feed that ends it. *)
Definition at_end (s : string) : bool :=
  match s with
  | EmptyString => true
  | String c EmptyString => Ascii.eqb c newline
  | _ => false
  end.

(** A backtracking match of a token list, anchored at both ends. *)
Fixpoint matches (ts : list token) (s : string) {struct ts} : bool :=
  match ts with
  | [] => at_end s
  | TLit c :: ts' =>
      match s with
      | String a s' => Ascii.eqb a c && matches ts' s'
      | EmptyString => false
      end
  | TAny :: ts' =>
      match s with
      | String a s' => negb (Ascii.eqb a newline) && matches ts' s'
      | EmptyString => false
      end
  | TAnyStar :: ts' =>
      (fix star (s : string) : bool :=
         matches ts' s ||
         match s with
         | String a s' => negb (Ascii.eqb a newline) && star s'
         | EmptyString => false
         end) s
  end.

(** [re.match(pattern, text)] as a truth value; [None] when the pattern
    lies outside the fragment. *)
Definition re_match (pattern text : string) : option bool :=
  ts ← re_compile pattern; Some (matches ts text).

End Re.

(** ** Outcomes of a scan

    [scan_directory] either returns its result or is left by an exception.
    The model has two such exits: a regular expression outside the modelled
    fragment, and an identifier loop that was still colliding when its fuel
    ran out. *)
Inductive scan_error :=
| RegexOutsideFragment (pattern : string)
| IdFuelExhausted.

Inductive outcome (A : Type) :=
| Ok (a : A)
| Err (e : scan_error).
Arguments Ok {A} a.
Arguments Err {A} e.

Global Instance outcome_ret : MRet outcome := fun A a => Ok a.
Global Instance outcome_bind : MBind outcome :=
  fun A B f m => match m with Ok a => f a | Err e => Err e end.

(** ** [parse_gitignore]

    The argument is the sequence of lines the file iteration produced
    (all of them, or those read before an exception stopped the loop; none
    when the file could not be opened): the patterns appended so far are
    returned in every case. *)
Definition parse_gitignore (lines : list string) : list string :=
  List.filter (fun line => PyStr.truthy line && negb (PyStr.startswith "#" line))
         (map PyStr.strip lines).

(** ** [is_ignored] *)

(** Lines 93-106: the regular expression built from one pattern (negation
    mark already removed). *)
Definition regex_of_pattern (pattern : string) : string :=
  let regex_pattern := pattern in
  let regex_pattern := PyStr.replace "." "\." regex_pattern in
  let regex_pattern := PyStr.replace "*" ".*" regex_pattern in
  let regex_pattern := PyStr.replace "?" "." regex_pattern in
  let is_dir_only := PyStr.endswith "/" regex_pattern in
  let regex_pattern :=
    if is_dir_only then PyStr.drop_last regex_pattern else regex_pattern in
  if negb (PyStr.contains "/" regex_pattern) then ".*" +:+ regex_pattern
  else regex_pattern.

(** The loop of lines 87-112 over the remaining patterns. *)
Fixpoint is_ignored_loop (check_path : string) (patterns : list string)
  : outcome bool :=
  match patterns with
  | [] => Ok false
  | pattern :: rest =>
      let is_negation := PyStr.startswith "!" pattern in
      let pattern := if is_negation then PyStr.tail pattern else pattern in
      let regex_pattern := regex_of_pattern pattern in
      match Re.re_match ("^" +:+ regex_pattern +:+ "$") check_path with
      | None => Err (RegexOutsideFragment regex_pattern)
      | Some true => Ok (negb is_negation)
      | Some false => is_ignored_loop check_path rest
      end
  end.

Definition is_ignored (file_path rel_path : string)
    (gitignore_patterns : list string) : outcome bool :=
  match gitignore_patterns with
  | [] => Ok false
  | _ =>
      let check_path :=
        if PyStr.truthy rel_path then path_join "." rel_path else "." in
      is_ignored_loop check_path gitignore_patterns
  end.

(** ** The manifest (the dictionaries built by [scan_directory]) *)

Record FileMetadata := {
  created_date : string;
  last_modified : string;
  last_reviewed : string;
  size_bytes : Z;
  hash : string
}.

Record FileRecord := {
  id : string;
  folder : string;
  file_name : string;
  file_type : string;
  metadata : FileMetadata;
  description : string;
  security_observations : string
}.

Record FolderRecord := {
  path : string;
  files : list FileRecord
}.

(** [scan_duration_seconds] and [scan_timestamp] are read off the wall clock
    after the walk and are left out. *)
Record ScanInfo := {
  target_directory : string;
  total_folders : Z;
  total_files : Z
}.

Record ScanResult := {
  scan_info : ScanInfo;
  folders : list FolderRecord
}.

(** ** The file system as the scan sees it *)

(** What [os.stat] and the two [datetime.fromtimestamp(...).isoformat()]
    calls deliver for a file (lines 197-200). *)
Record FileStats := {
  st_ctime_iso : string;
  st_mtime_iso : string;
  st_size : Z
}.

(** A non-directory entry.  [f_stat = None]: lines 197-200 raise.
    [f_content = None]: opening or reading the file raises.  [f_isfile]:
    the answer of [os.path.isfile].  A read that never returns (a FIFO, a
    device) has no counterpart here: every read returns or raises. *)
Record FileNode := {
  f_isfile : bool;
  f_stat : option FileStats;
  f_content : option string
}.

(** A directory as [os.walk] lists it: its non-directory entries and the
    sub-directories it descends into, each in listing order.  (An entry of
    [dirs] that [os.walk] does not enter, a symbolic link or an unreadable
    directory, yields nothing and leaves no trace in the scan.) *)
#[warnings="-register-all"]
Inductive Dir :=
| MkDir (d_files : list (string * FileNode)) (d_dirs : list (string * Dir)).

Definition d_files (d : Dir) : list (string * FileNode) :=
  match d with MkDir fs _ => fs end.

(** Directory entries are never empty and never hold a separator. *)
Definition name_ok (n : string) : bool :=
  PyStr.truthy n && negb (PyStr.contains "/" n).

Fixpoint names_ok (d : Dir) : bool :=
  match d with
  | MkDir fs ds =>
      forallb (fun e => name_ok (fst e)) fs &&
      forallb (fun e => name_ok (fst e) && names_ok (snd e)) ds
  end.

(** Iterating over a file opened in text mode: lines end at a line feed, a
    carriage return, or the pair; the terminator is handed on as a line
    feed. *)
Fixpoint text_lines_from (cur : string) (s : string) : list string :=
  match s with
  | EmptyString => if PyStr.truthy cur then [cur] else []
  | String c r =>
      if Ascii.eqb c Re.newline then
        (cur +:+ String Re.newline "") :: text_lines_from "" r
      else if Ascii.eqb c (ascii_of_nat 13) then
        match r with
        | String c' r' =>
            if Ascii.eqb c' Re.newline then
              (cur +:+ String Re.newline "") :: text_lines_from "" r'
            else (cur +:+ String Re.newline "") :: text_lines_from "" r
        | EmptyString => [cur +:+ String Re.newline ""]
        end
      else text_lines_from (cur +:+ String c "") r
  end.

Definition text_lines (s : string) : list string := text_lines_from "" s.

(** [any(pattern in name for pattern in ignore_patterns)] *)
Definition any_pattern_in (ignore_patterns : list string) (name : string) : bool :=
  existsb (fun pattern => PyStr.contains pattern name) ignore_patterns.

Definition default_ignore_patterns : list string :=
  [".git"; "__pycache__"; "venv"; "node_modules"; ".DS_Store"].

(** Lines 125-126. *)
Definition effective_ignore (ignore_patterns : option (list string))
  : list string :=
  match ignore_patterns with
  | None => default_ignore_patterns
  | Some l => l
  end.

(** Lines 129-134. *)
Definition load_gitignore (use_gitignore : bool) (tree : Dir) : list string :=
  match List.find (fun e => String.eqb (fst e) ".gitignore") (d_files tree) with
  | Some (_, node) =>
      if use_gitignore && f_isfile node then
        parse_gitignore
          (match f_content node with
           | Some text => text_lines text
           | None => []
           end)
      else []
  | None => []
  end.

(** One element of the iteration [for root, dirs, files in os.walk(...)],
    with the relative path that [os.path.relpath(root, target_dir)] gives
    for it (the directory names below the scan root joined by [/]; the root
    itself, [.], already rewritten to the empty string as in lines
    163-164). *)
Record WalkItem := {
  w_root : string;
  w_rel : string;
  w_files : list (string * FileNode)
}.

(** [os.walk(target_dir)], top-down, together with the in-place pruning of
    [dirs] at line 155: a sub-directory whose name holds an ignore substring
    is not entered.  [os.walk] names a sub-directory [os.path.join(top,
    name)]. *)
Fixpoint walk (ignore_patterns : list string) (root rel : string) (d : Dir)
  : list WalkItem :=
  match d with
  | MkDir fs ds =>
      {| w_root := root; w_rel := rel; w_files := fs |} ::
      flat_map
        (fun e =>
           if any_pattern_in ignore_patterns (fst e) then []
           else walk ignore_patterns (path_join root (fst e))
                     (if PyStr.truthy rel then rel +:+ "/" +:+ fst e else fst e)
                     (snd e))
        ds
  end.

(** The mutable state of one call: the result under construction, the
    [used_ids] set, the number of [uuid.uuid4()] draws made so far, and the
    paths [calculate_file_hash] has opened, in order. *)
Record ScanState := {
  result : ScanResult;
  used_ids : gset string;
  uuid_draws : nat;
  opened : list string
}.

(** The library functions the script calls, taken as given.  [uuid4 k] is
    the text of the [k]-th identifier that [uuid.uuid4()] hands out during
    the call. *)
Class Runtime := {
  sha256_hexdigest : string -> string;       (* hashlib.sha256(data).hexdigest() *)
  guess_type : string -> option string;      (* mimetypes.guess_type(f)[0] *)
  splitext_ext : string -> string;           (* os.path.splitext(f)[1] *)
  abspath : string -> string;                (* os.path.abspath *)
  uuid4 : nat -> string
}.

Section Scanner.

Context `{Runtime}.

(** [calculate_file_hash]: the digest, and the paths it opened. *)
Definition calculate_file_hash (file_path : string) (content : option string)
    (skip_hash : bool) : string * list string :=
  if skip_hash then ("skipped", [])
  else
    match content with
    | Some data => (sha256_hexdigest data, [file_path])
    | None => ("hash_error", [file_path])
    end.

(** Lines 186-188: [file_id] is the current candidate and [k] the number
    of draws made; each turn of the [while] loop uses one unit of fuel. *)
Fixpoint redraw_id (fuel : nat) (used : gset string) (file_id : string)
    (k : nat) : outcome (string * nat) :=
  if bool_decide (file_id ∈ used) then
    match fuel with
    | O => Err IdFuelExhausted
    | S fuel' => redraw_id fuel' used (uuid4 k) (S k)
    end
  else Ok (file_id, k).

(** Lines 192-193. *)
Definition file_type_of (filename : string) : string :=
  let file_extension := splitext_ext filename in
  match guess_type filename with
  | Some t => if PyStr.truthy t then t else "unknown" +:+ file_extension
  | None => "unknown" +:+ file_extension
  end.

(** Lines 196-245: the record for a file that passed the filters. *)
Definition file_entry_of (skip_hash : bool) (file_path rel_path filename
    file_id : string) (node : FileNode) : FileRecord * list string :=
  let file_type := file_type_of filename in
  match f_stat node with
  | Some file_stats =>
      let '(file_hash, reads) :=
        calculate_file_hash file_path (f_content node) skip_hash in
      ({| id := file_id;
          folder := rel_path;
          file_name := filename;
          file_type := file_type;
          metadata := {| created_date := st_ctime_iso file_stats;
                         last_modified := st_mtime_iso file_stats;
                         last_reviewed := "";
                         size_bytes := st_size file_stats;
                         hash := file_hash |};
          description := "";
          security_observations := "" |}, reads)
  | None =>
      ({| id := file_id;
          folder := rel_path;
          file_name := filename;
          file_type := file_type;
          metadata := {| created_date := "";
                         last_modified := "";
                         last_reviewed := "";
                         size_bytes := 0;
                         hash := "error" |};
          description := "Error processing file";
          security_observations :=
            "File could not be processed, may require manual review" |}, [])
  end.

Section Walk.

Variable fuel : nat.
Variable ignore_patterns : list string.
Variable gitignore_patterns : list string.
Variable skip_hash : bool.

(** The body of [for filename in files] (lines 173-247), on the files
    collected so far for this folder and the state. *)
Definition scan_file (root rel_path : string) (entry : string * FileNode)
    (acc : list FileRecord * ScanState)
  : outcome (list FileRecord * ScanState) :=
  let '(filename, node) := entry in
  let '(entry_files, st) := acc in
  if any_pattern_in ignore_patterns filename then Ok acc
  else
    let file_path := path_join root filename in
    let file_rel_path :=
      if PyStr.truthy rel_path then path_join rel_path filename
      else filename in
    ignored ← is_ignored file_path file_rel_path gitignore_patterns;
    if ignored : bool then Ok acc
    else
      '(file_id, k) ← redraw_id fuel (used_ids st) (uuid4 (uuid_draws st))
                               (S (uuid_draws st));
      let '(file_entry, reads) :=
        file_entry_of skip_hash file_path rel_path filename file_id node in
      Ok (entry_files ++ [file_entry],
          {| result := result st;
             used_ids := {[file_id]} ∪ used_ids st;
             uuid_draws := k;
             opened := opened st ++ reads |}).

Fixpoint scan_files (root rel_path : string)
    (entries : list (string * FileNode))
    (acc : list FileRecord * ScanState)
  : outcome (list FileRecord * ScanState) :=
  match entries with
  | [] => Ok acc
  | entry :: rest =>
      acc' ← scan_file root rel_path entry acc;
      scan_files root rel_path rest acc'
  end.

(** Lines 249-253. *)
Definition add_folder (folder_entry : FolderRecord) (r : ScanResult)
  : ScanResult :=
  match files folder_entry with
  | [] => r
  | _ =>
      {| scan_info :=
           {| target_directory := target_directory (scan_info r);
              total_folders := total_folders (scan_info r) + 1;
              total_files := total_files (scan_info r)
                             + Z.of_nat (length (files folder_entry)) |};
         folders := folders r ++ [folder_entry] |}
  end.

(** The body of the walk loop (lines 153-253). *)
Definition scan_folder (item : WalkItem) (st : ScanState)
  : outcome ScanState :=
  if any_pattern_in ignore_patterns (w_root item) then Ok st
  else
    let rel_path := w_rel item in
    '(entry_files, st') ←
      scan_files (w_root item) rel_path (w_files item) ([], st);
    let folder_entry := {| path := rel_path; files := entry_files |} in
    Ok {| result := add_folder folder_entry (result st');
          used_ids := used_ids st';
          uuid_draws := uuid_draws st';
          opened := opened st' |}.

Fixpoint scan_walk (items : list WalkItem) (st : ScanState)
  : outcome ScanState :=
  match items with
  | [] => Ok st
  | item :: rest => st' ← scan_folder item st; scan_walk rest st'
  end.

End Walk.

Definition initial_state (target_dir : string) : ScanState :=
  {| result := {| scan_info := {| target_directory := abspath target_dir;
                                  total_folders := 0;
                                  total_files := 0 |};
                  folders := [] |};
     used_ids := ∅;
     uuid_draws := 0;
     opened := [] |}.

(** [scan_directory], run to the end of the walk (line 253) on the tree
    found at [target_dir]; [fuel] bounds each identifier loop. *)
Definition scan_state (fuel : nat) (tree : Dir) (target_dir : string)
    (ignore_patterns : option (list string)) (use_gitignore skip_hash : bool)
  : outcome ScanState :=
  let ignore_patterns := effective_ignore ignore_patterns in
  let gitignore_patterns := load_gitignore use_gitignore tree in
  scan_walk fuel ignore_patterns gitignore_patterns skip_hash
    (walk ignore_patterns target_dir "" tree) (initial_state target_dir).

(** The value [scan_directory] returns.  Writing it to [output_file]
    (lines 260-262) is left out, and with it the [output_file] argument. *)
Definition scan_directory (fuel : nat) (tree : Dir) (target_dir : string)
    (ignore_patterns : option (list string)) (use_gitignore skip_hash : bool)
  : outcome ScanResult :=
  st ← scan_state fuel tree target_dir ignore_patterns use_gitignore skip_hash;
  Ok (result st).

End Scanner.

(** ** Observations on a result *)

(** All file records of a manifest, in output order. *)
Definition all_files (r : ScanResult) : list FileRecord :=
  flat_map files (folders r).

(** [sum(len(f.files) for f in folders)] *)
Definition count_files (fs : list FolderRecord) : Z :=
  fold_right (fun f n => Z.of_nat (length (files f)) + n) 0 fs.

(** ** The files a scan keeps

    [survives] is the pair of filters of lines 175 and 182 as a truth value;
    [kept_files] lists the entries of a visited directory that pass them
    (none when the directory itself is skipped at line 158). *)
Section Kept.

Variable ignore_patterns : list string.
Variable gitignore_patterns : list string.

Definition survives (root rel_path : string) (entry : string * FileNode)
  : bool :=
  negb (any_pattern_in ignore_patterns (fst entry)) &&
  match is_ignored (path_join root (fst entry))
          (if PyStr.truthy rel_path then path_join rel_path (fst entry)
           else fst entry)
          gitignore_patterns with
  | Ok false => true
  | _ => false
  end.

Definition kept_files (item : WalkItem) : list (string * FileNode) :=
  if any_pattern_in ignore_patterns (w_root item) then []
  else List.filter (survives (w_root item) (w_rel item)) (w_files item).

Definition has_kept_file (item : WalkItem) : bool :=
  match kept_files item with [] => false | _ => true end.

End Kept.

(** [record_of skip_hash root rel_path entry r]: [r] is the record that
    lines 192-245 build for [entry] of the directory [root], under some
    identifier. *)
Definition record_of `{Runtime} (skip_hash : bool) (root rel_path : string)
    (entry : string * FileNode) (r : FileRecord) : Prop :=
  exists file_id,
    r = fst (file_entry_of skip_hash (path_join root (fst entry)) rel_path
               (fst entry) file_id (snd entry)).

(** The pattern, once translated, lies in the modelled regex fragment. *)
Definition pattern_supported (pattern : string) : bool :=
  let is_negation := PyStr.startswith "!" pattern in
  let pattern := if is_negation then PyStr.tail pattern else pattern in
  match Re.re_compile ("^" +:+ regex_of_pattern pattern +:+ "$") with
  | Some _ => true
  | None => false
  end.

(** [folder_of skip_hash ign gi item f]: [f] is the folder record of the
    visited directory [item], holding the records of its kept files in
    order. *)
Definition folder_of `{Runtime} (skip_hash : bool)
    (ignore_patterns gitignore_patterns : list string)
    (item : WalkItem) (f : FolderRecord) : Prop :=
  path f = w_rel item /\
  Forall2 (record_of skip_hash (w_root item) (w_rel item))
          (kept_files ignore_patterns gitignore_patterns item) (files f).

(** What holds of the state between two turns of the walk loop. *)
Definition manifest_ok (st : ScanState) : Prop :=
  total_folders (scan_info (result st))
    = Z.of_nat (length (folders (result st))) /\
  total_files (scan_info (result st)) = count_files (folders (result st)) /\
  Forall (fun f => files f <> []) (folders (result st)) /\
  NoDup (map id (all_files (result st))) /\
  (forall r, In r (all_files (result st)) -> id r ∈ used_ids st).

(** Every identifier in use was handed out by the source earlier in the
    call. *)
Definition ids_from_source `{Runtime} (st : ScanState) : Prop :=
  forall x, x ∈ used_ids st -> exists j, (j < uuid_draws st)%nat /\ x = uuid4 j.

(** The same tree with every file node rewritten by [f] (contents, status
    and kind may change; names and directories stay). *)
Fixpoint map_nodes (f : string -> FileNode -> FileNode) (d : Dir) : Dir :=
  match d with
  | MkDir fs ds =>
      MkDir (map (fun e => (fst e, f (fst e) (snd e))) fs)
            (map (fun e => (fst e, map_nodes f (snd e))) ds)
  end.

(** ** Vocabulary for the properties of the matcher *)

(** The rule with its negation mark removed (lines 89-91). *)
Definition rule_body (rule : string) : string :=
  if PyStr.startswith "!" rule then PyStr.tail rule else rule.

(** Whether one rule matches the path (lines 93-109); [None] outside the
    regex fragment. *)
Definition rule_verdict (check_path rule : string) : option bool :=
  Re.re_match ("^" +:+ regex_of_pattern (rule_body rule) +:+ "$") check_path.

(** Line 85. *)
Definition check_path_of (rel_path : string) : string :=
  if PyStr.truthy rel_path then path_join "." rel_path else ".".

(** The three replacements of lines 95-97. *)
Definition glob_to_regex (pattern : string) : string :=
  PyStr.replace "?" "." (PyStr.replace "*" ".*" (PyStr.replace "." "\." pattern)).

(** Every character of the string passes the test. *)
Fixpoint all_chars (test : ascii -> bool) (s : string) : bool :=
  match s with
  | EmptyString => true
  | String a s' => test a && all_chars test s'
  end.

(** A character a Python regex takes literally. *)
Definition literal_char (c : ascii) : bool := negb (Re.is_meta c).

Definition no_newline (s : string) : bool :=
  all_chars (fun a => negb (Ascii.eqb a Re.newline)) s.

(** The string is empty or begins with a literal character. *)
Definition starts_literal (s : string) : bool :=
  match s with
  | EmptyString => true
  | String c _ => literal_char c
  end.

(** ** Vocabulary for the properties of the manifest *)

(** The path of a recorded file relative to the scan root (line 179, from
    the record's own fields). *)
Definition rel_file_path (r : FileRecord) : string :=
  if PyStr.truthy (folder r) then path_join (folder r) (file_name r)
  else file_name r.

(** The two shapes of a file record: lines 206-220 and lines 231-245. *)
Definition normal_record (r : FileRecord) : Prop :=
  description r = "" /\ security_observations r = "".

Definition degraded_record (r : FileRecord) : Prop :=
  created_date (metadata r) = "" /\
  last_modified (metadata r) = "" /\
  size_bytes (metadata r) = 0 /\
  hash (metadata r) = "error" /\
  description r = "Error processing file" /\
  security_observations r
    = "File could not be processed, may require manual review".

(** The paths [calculate_file_hash] opens in a visited directory when
    hashing is not skipped: those of the kept files whose metadata could be
    read (the hash is computed inside the [try] block, after [os.stat]). *)
Definition has_metadata (entry : string * FileNode) : bool :=
  match f_stat (snd entry) with
  | Some _ => true
  | None => false
  end.

Definition hashed_paths (ignore_patterns gitignore_patterns : list string)
    (item : WalkItem) : list string :=
  map (fun entry => path_join (w_root item) (fst entry))
      (List.filter has_metadata
         (kept_files ignore_patterns gitignore_patterns item)).

(** ** Vocabulary for the properties of the walk *)

(** [reaches ign tree names d]: the directory [d] lies below [tree] along
    the directory names [names], none of which holds an ignore
    substring. *)
Inductive reaches (ignore_patterns : list string)
  : Dir -> list string -> Dir -> Prop :=
| reaches_here d : reaches ignore_patterns d [] d
| reaches_below fs ds name sub names d :
    In (name, sub) ds ->
    any_pattern_in ignore_patterns name = false ->
    reaches ignore_patterns sub names d ->
    reaches ignore_patterns (MkDir fs ds) (name :: names) d.

(** The relative path and the root path of the directory found along
    [names] below a directory with relative path [rel] and path [root]. *)
Definition rel_below (rel : string) (names : list string) : string :=
  fold_left (fun rel name =>
               if PyStr.truthy rel then rel +:+ "/" +:+ name else name)
            names rel.

Definition root_below (root : string) (names : list string) : string :=
  fold_left path_join names root.

(** A record with its identifier and its hash blanked, and the folders of
    a manifest with every record so treated. *)
Definition without_id_and_hash (r : FileRecord) : FileRecord :=
  {| id := "";
     folder := folder r;
     file_name := file_name r;
     file_type := file_type r;
     metadata := {| created_date := created_date (metadata r);
                    last_modified := last_modified (metadata r);
                    last_reviewed := last_reviewed (metadata r);
                    size_bytes := size_bytes (metadata r);
                    hash := "" |};
     description := description r;
     security_observations := security_observations r |}.

Definition folders_without_ids_and_hashes (res : ScanResult)
  : list FolderRecord :=
  map (fun f => {| path := path f;
                   files := map without_id_and_hash (files f) |})
      (folders res).

(** The runtime with another identifier source. *)
Definition with_uuid4 (source : nat -> string) (rt : Runtime) : Runtime :=
  {| sha256_hexdigest := @sha256_hexdigest rt;
     guess_type := @guess_type rt;
     splitext_ext := @splitext_ext rt;
     abspath := @abspath rt;
     uuid4 := source |}.

(** The kept files of a visited directory as the manifest names them:
    folder and file name. *)
Definition kept_names (ignore_patterns gitignore_patterns : list string)
    (item : WalkItem) : list (string * string) :=
  map (fun entry => (w_rel item, fst entry))
      (kept_files ignore_patterns gitignore_patterns item).

(** The text with every line feed written as carriage return, line feed. *)
Definition with_crlf (text : string) : string :=
  PyStr.replace Re.newline (String (ascii_of_nat 13) (String Re.newline ""))
    text.

(** A character of a glob rule that the translation handles: a literal
    character or one of [.], [*], [?].  A rule made of such characters
    builds an expression inside the regex fragment. *)
Definition glob_char (c : ascii) : bool :=
  literal_char c || Ascii.eqb c "." || Ascii.eqb c "*" || Ascii.eqb c "?".

(** ** Sample runtimes and trees *)

Module Sample.

Fixpoint tally (k : nat) : string :=
  match k with
  | O => ""
  | S k' => String "i" (tally k')
  end.

(** Stand-ins for the library functions; the identifier source never
    repeats itself. *)
Definition runtime : Runtime :=
  {| sha256_hexdigest := fun data => "sha256:" +:+ data;
     guess_type := fun _ => None;
     splitext_ext := fun _ => "";
     abspath := fun p => if PyStr.startswith "/" p then p else "/work/" +:+ p;
     uuid4 := fun k => "id-" +:+ tally k |}.

(** The same, with an identifier source that hands out every value
    twice. *)
Definition colliding_runtime : Runtime :=
  {| sha256_hexdigest := fun data => "sha256:" +:+ data;
     guess_type := fun _ => None;
     splitext_ext := fun _ => "";
     abspath := fun p => if PyStr.startswith "/" p then p else "/work/" +:+ p;
     uuid4 := fun k => "id-" +:+ tally (k / 2) |}.

Definition stats (size : Z) : FileStats :=
  {| st_ctime_iso := "2024-01-01T00:00:00";
     st_mtime_iso := "2024-01-02T00:00:00";
     st_size := size |}.

Definition readable (text : string) : FileNode :=
  {| f_isfile := true;
     f_stat := Some (stats (Z.of_nat (String.length text)));
     f_content := Some text |}.

(** Metadata can be read, the content cannot (permission denied). *)
Definition locked (size : Z) : FileNode :=
  {| f_isfile := true; f_stat := Some (stats size); f_content := None |}.

(** [os.stat] fails (a dangling symbolic link). *)
Definition vanished : FileNode :=
  {| f_isfile := false; f_stat := None; f_content := None |}.

Definition lf : string := String Re.newline "".

Definition tmp_tree : Dir :=
  MkDir [(".gitignore", readable ("*.tmp" +:+ lf +:+ "!keep.tmp" +:+ lf));
         ("keep.tmp", readable "keep");
         ("other.tmp", readable "other")]
        [].

Definition build_tree : Dir :=
  MkDir [(".gitignore", readable ("build/" +:+ lf))]
        [("build", MkDir [("output.bin", readable "bin")] []);
         ("src", MkDir [("main.txt", readable "main")] [])].

Definition mixed_tree : Dir :=
  MkDir [(".gitignore", readable ("# logs" +:+ lf +:+ "*.log" +:+ lf));
         ("README", readable "read me");
         ("secret.key", locked 42);
         ("gone.txt", vanished)]
        [("logs", MkDir [("a.log", readable "a"); ("b.log", readable "b")] []);
         ("node_modules", MkDir [("dep.js", readable "dep")] []);
         ("src", MkDir [("main.py", readable "main"); ("x.log", readable "x")]
                       [("pkg", MkDir [("mod.py", readable "mod")] [])])].

Definition locked_tree : Dir := MkDir [("secret.key", locked 42)] [].

Definition vanished_tree : Dir := MkDir [("gone.txt", vanished)] [].

Definition cache_tree : Dir :=
  MkDir [(".gitignore", readable "")]
        [("cache", MkDir [("x.tmp", readable "x")] [])].

(** [cache_tree] with another ignore file. *)
Definition cache_tree_ignoring_tmp : Dir :=
  map_nodes (fun name node =>
               if String.eqb name ".gitignore" then readable "*.tmp"
               else node)
            cache_tree.

End Sample.

(** The stand-ins of [Sample.runtime] for a process whose working
    directory is [/home/u/venv]: relative paths resolve below it. *)
Definition runtime_under_venv : Runtime :=
  {| sha256_hexdigest := fun data => "sha256:" +:+ data;
     guess_type := fun _ => None;
     splitext_ext := fun _ => "";
     abspath := fun p =>
       if PyStr.startswith "/" p then p else "/home/u/venv/" +:+ p;
     uuid4 := fun k => "id-" +:+ Sample.tally k |}.

(** ** Induction on directory trees *)

Lemma Dir_induction (P : Dir -> Prop) :
  (forall fs ds, Forall (fun e => P (snd e)) ds -> P (MkDir fs ds)) ->
  forall d, P d.
Proof.
  intros step. fix IH 1. intros [fs ds]. apply step.
  induction ds as [|e ds IHds]; constructor; [apply IH | exact IHds].
Qed.

(** ** The helpers on small inputs *)

Example path_join_cases :
  path_join "." "a/b.txt" = "./a/b.txt" /\
  path_join "proj/" "src" = "proj/src" /\
  path_join "" "src" = "src" /\
  path_join "proj" "/etc" = "/etc".
Proof. repeat split; reflexivity. Qed.

Example strip_cases :
  PyStr.strip "  *.tmp " = "*.tmp" /\
  PyStr.strip "a b" = "a b" /\
  PyStr.strip "   " = "".
Proof. repeat split; reflexivity. Qed.

Example parse_gitignore_cases :
  parse_gitignore (text_lines ("# logs" +:+ Sample.lf +:+ Sample.lf +:+
                                " *.log " +:+ Sample.lf +:+ "!keep.log"))
  = ["*.log"; "!keep.log"].
Proof. reflexivity. Qed.

Example regex_of_pattern_cases :
  regex_of_pattern "*.log" = ".*.*\.log" /\
  regex_of_pattern "build/" = ".*build" /\
  regex_of_pattern "docs/?.md" = "docs/.\.md".
Proof. repeat split; reflexivity. Qed.

Example is_ignored_cases :
  is_ignored "proj/a.log" "a.log" ["*.log"] = Ok true /\
  is_ignored "proj/a.txt" "a.txt" ["*.log"] = Ok false /\
  is_ignored "proj/src/a.log" "src/a.log" ["*.log"] = Ok true /\
  is_ignored "proj/src/build" "src/build" ["build/"] = Ok true /\
  is_ignored "proj/a.txt" "a.txt" ["[ab].txt"]
    = Err (RegexOutsideFragment ".*[ab]\.txt") /\
  is_ignored "proj/a.txt" "a.txt" [] = Ok false.
Proof. repeat split; reflexivity. Qed.

(** ** Strings and paths *)

Lemma append_cons a (s t : string) : String a s +:+ t = String a (s +:+ t).
Proof. reflexivity. Qed.

Lemma append_nil (t : string) : "" +:+ t = t.
Proof. reflexivity. Qed.

Lemma prefix_nil s : String.prefix "" s = true.
Proof. destruct s; reflexivity. Qed.

Lemma prefix_app p s t :
  String.prefix p s = true -> String.prefix p (s +:+ t) = true.
Proof.
  revert s. induction p as [|a p IH]; intros s H.
  - apply prefix_nil.
  - destruct s as [|b s]; simpl in H; [discriminate|].
    rewrite append_cons. simpl.
    destruct (ascii_dec a b); [auto | discriminate].
Qed.

Lemma contains_cons p a s :
  PyStr.contains p (String a s) =
  String.prefix p (String a s) || PyStr.contains p s.
Proof. reflexivity. Qed.

Lemma contains_app_l p s t :
  PyStr.contains p s = true -> PyStr.contains p (s +:+ t) = true.
Proof.
  induction s as [|a s IH]; intros H.
  - cbn in H. rewrite orb_false_r in H. destruct p; [|discriminate].
    rewrite append_nil. destruct t; reflexivity.
  - rewrite contains_cons in H. apply orb_true_iff in H as [H|H].
    + apply (prefix_app _ _ t) in H. rewrite append_cons in *.
      rewrite contains_cons, H. reflexivity.
    + rewrite append_cons, contains_cons, (IH H). apply orb_true_r.
Qed.

Lemma name_ok_not_absolute n :
  name_ok n = true -> PyStr.startswith "/" n = false.
Proof.
  unfold name_ok, PyStr.startswith. intros H.
  apply andb_true_iff in H as [_ H]. apply negb_true_iff in H.
  destruct n as [|a n]; [reflexivity|].
  simpl in H. apply orb_false_iff in H as [H _]. exact H.
Qed.

Lemma contains_path_join p a b :
  name_ok b = true ->
  PyStr.contains p a = true -> PyStr.contains p (path_join a b) = true.
Proof.
  intros Hb Ha. unfold path_join. rewrite (name_ok_not_absolute _ Hb).
  destruct (negb (PyStr.truthy a) || PyStr.endswith "/" a);
    now apply contains_app_l.
Qed.

Lemma any_pattern_in_path_join pats a b :
  name_ok b = true ->
  any_pattern_in pats a = true -> any_pattern_in pats (path_join a b) = true.
Proof.
  unfold any_pattern_in. intros Hb H.
  apply existsb_exists in H as (p & Hp & H). apply existsb_exists.
  exists p. split; [exact Hp | now apply contains_path_join].
Qed.

(** Every directory below an ignored root carries the root's path, hence
    the ignore substring. *)
Lemma walk_below_ignored_root pats d :
  forall root rel,
    names_ok d = true ->
    any_pattern_in pats root = true ->
    Forall (fun item => any_pattern_in pats (w_root item) = true)
           (walk pats root rel d).
Proof.
  induction d as [fs ds IH] using Dir_induction. intros root rel Hok Hroot.
  simpl. constructor; [exact Hroot|].
  simpl in Hok. apply andb_true_iff in Hok as [_ Hok].
  induction ds as [|[n sub] ds IHds]; simpl; [constructor|].
  simpl in Hok. apply andb_true_iff in Hok as [Hn Hds].
  apply andb_true_iff in Hn as [Hn Hsub].
  inversion IH as [|? ? Hhd Htl]; subst.
  apply Forall_app. split; [|now apply IHds].
  destruct (any_pattern_in pats n); [constructor|].
  apply Hhd; [exact Hsub | now apply any_pattern_in_path_join].
Qed.

(** ** The file loop *)

Section ScanFacts.

Context `{Runtime}.
Variable fuel : nat.
Variable ignore_patterns : list string.
Variable gitignore_patterns : list string.
Variable skip_hash : bool.

Lemma redraw_id_fresh n used file_id k file_id' k' :
  redraw_id n used file_id k = Ok (file_id', k') -> file_id' ∉ used.
Proof.
  revert file_id k. induction n as [|n IH]; intros file_id k; simpl;
    case_bool_decide; try discriminate; eauto; congruence.
Qed.

Lemma file_entry_id skip file_path rel_path filename file_id node :
  id (fst (file_entry_of skip file_path rel_path filename file_id node))
  = file_id.
Proof.
  unfold file_entry_of. destruct (f_stat node); [|reflexivity].
  destruct (calculate_file_hash _ _ _); reflexivity.
Qed.

Lemma file_entry_reads_skipped file_path rel_path filename file_id node :
  snd (file_entry_of true file_path rel_path filename file_id node) = [].
Proof. unfold file_entry_of. destruct (f_stat node); reflexivity. Qed.

(** One turn of the file loop: a filtered entry changes nothing, a kept
    one appends its record under an identifier not yet in [used_ids]. *)
Lemma scan_file_spec root rel_path entry acc st acc' st' :
  scan_file fuel ignore_patterns gitignore_patterns skip_hash
    root rel_path entry (acc, st) = Ok (acc', st') ->
  result st' = result st /\
  (skip_hash = true -> opened st' = opened st) /\
  if survives ignore_patterns gitignore_patterns root rel_path entry then
    exists r,
      record_of skip_hash root rel_path entry r /\
      acc' = acc ++ [r] /\
      (id r ∉ used_ids st) /\
      used_ids st' = {[id r]} ∪ used_ids st
  else acc' = acc /\ st' = st.
Proof.
  destruct entry as [filename node]. unfold scan_file, survives. simpl.
  destruct (any_pattern_in ignore_patterns filename); simpl.
  { intros [= <- <-]. auto. }
  destruct (is_ignored _ _ _) as [[|]|e]; simpl; try discriminate.
  { intros [= <- <-]. auto. }
  destruct (redraw_id _ _ _ _) as [[file_id k]|e] eqn:Hid; simpl;
    try discriminate.
  destruct (file_entry_of _ _ _ _ _ _) as [file_entry reads] eqn:He.
  intros [= <- <-]. simpl. apply redraw_id_fresh in Hid.
  assert (Hr : file_entry =
    fst (file_entry_of skip_hash (path_join root filename) rel_path
           filename file_id node)) by now rewrite He.
  assert (Hi : id file_entry = file_id)
    by (rewrite Hr; apply file_entry_id).
  split; [reflexivity|]. split.
  - intros Hs. rewrite Hs in He.
    pose proof (file_entry_reads_skipped (path_join root filename) rel_path
                  filename file_id node) as E.
    rewrite He in E. simpl in E. rewrite E. apply app_nil_r.
  - exists file_entry. rewrite Hi. repeat split; auto.
    exists file_id. exact Hr.
Qed.

(** The whole file loop of one directory: the records appended are those
    of the kept entries, in order, under pairwise distinct identifiers
    that were not in use before. *)
Lemma scan_files_spec root rel_path entries :
  forall acc st acc' st',
    scan_files fuel ignore_patterns gitignore_patterns skip_hash
      root rel_path entries (acc, st) = Ok (acc', st') ->
    result st' = result st /\
    (skip_hash = true -> opened st' = opened st) /\
    exists new,
      acc' = acc ++ new /\
      Forall2 (record_of skip_hash root rel_path)
        (List.filter (survives ignore_patterns gitignore_patterns
                        root rel_path) entries) new /\
      NoDup (map id new) /\
      (forall r, In r new -> id r ∉ used_ids st) /\
      (forall x, x ∈ used_ids st' <-> x ∈ used_ids st \/ In x (map id new)).
Proof.
  induction entries as [|entry rest IH]; intros acc st acc' st'; simpl.
  - intros [= <- <-]. repeat split; auto. exists []. rewrite app_nil_r.
    repeat split; auto; try constructor; simpl; tauto.
  - destruct (scan_file _ _ _ _ _ _ _ _) as [[acc1 st1]|e] eqn:Hstep;
      simpl; [|discriminate].
    intros Hrest. apply scan_file_spec in Hstep as (Hres1 & Hop1 & Hstep).
    apply IH in Hrest as (Hres & Hop & new & -> & Hrec & Hnd & Hfresh & Hused).
    split; [congruence|]. split; [intros Hs; rewrite Hop, Hop1; auto|].
    destruct (survives _ _ _ _ _).
    + destruct Hstep as (r & Hr & -> & Hr_fresh & Hused1).
      exists (r :: new). rewrite <- app_assoc. simpl.
      split; [reflexivity|]. split; [now constructor|].
      assert (Hin1 : forall x, x ∈ used_ids st1 <-> x = id r \/ x ∈ used_ids st)
        by (intros x; rewrite Hused1, elem_of_union, elem_of_singleton;
            tauto).
      split; [|split].
      * constructor; [|exact Hnd].
        intros Hin. apply list_elem_of_In, in_map_iff in Hin
          as (r' & Heq & Hin).
        apply (Hfresh r' Hin). apply Hin1. left. exact Heq.
      * intros r' [<-|Hin]; [exact Hr_fresh|].
        intros Hu. apply (Hfresh r' Hin). apply Hin1. now right.
      * intros x. rewrite Hused, Hin1. intuition auto.
    + destruct Hstep as [-> ->]. exists new. auto.
Qed.

(** ** The walk loop *)

Lemma all_files_add_folder folder_entry r :
  all_files (add_folder folder_entry r) = all_files r ++ files folder_entry.
Proof.
  unfold add_folder, all_files.
  destruct (files folder_entry) as [|x l] eqn:E; simpl.
  - now rewrite app_nil_r.
  - rewrite flat_map_app. simpl. now rewrite E, app_nil_r.
Qed.

Lemma all_files_add_folder_eq folder_entry r r' :
  r' = add_folder folder_entry r ->
  all_files r' = all_files r ++ files folder_entry.
Proof. intros ->. apply all_files_add_folder. Qed.

Lemma count_files_app fs gs :
  count_files (fs ++ gs) = count_files fs + count_files gs.
Proof.
  unfold count_files. induction fs as [|f fs IH]; simpl; [reflexivity|].
  rewrite IH. lia.
Qed.

Lemma scan_folder_spec item st st' :
  scan_folder fuel ignore_patterns gitignore_patterns skip_hash item st
    = Ok st' ->
  (skip_hash = true -> opened st' = opened st) /\
  exists new,
    Forall2 (record_of skip_hash (w_root item) (w_rel item))
      (kept_files ignore_patterns gitignore_patterns item) new /\
    result st' = add_folder {| path := w_rel item; files := new |} (result st) /\
    NoDup (map id new) /\
    (forall r, In r new -> id r ∉ used_ids st) /\
    (forall x, x ∈ used_ids st' <-> x ∈ used_ids st \/ In x (map id new)).
Proof.
  unfold scan_folder, kept_files.
  destruct (any_pattern_in ignore_patterns (w_root item)).
  - intros [= <-]. split; [auto|]. exists []. simpl.
    repeat split; auto; try constructor; tauto.
  - destruct (scan_files _ _ _ _ _ _ _ _) as [[entry_files st1]|e] eqn:Hfiles;
      simpl; [|discriminate].
    intros [= <-]. simpl.
    apply scan_files_spec in Hfiles
      as (Hres & Hop & new & Hnew & Hrec & Hnd & Hfresh & Hused).
    simpl in Hnew. subst entry_files.
    split; [exact Hop|]. exists new. rewrite Hres. auto.
Qed.

Lemma scan_folder_preserves item st st' :
  manifest_ok st ->
  scan_folder fuel ignore_patterns gitignore_patterns skip_hash item st
    = Ok st' ->
  manifest_ok st'.
Proof.
  intros (Hfolders & Hfiles & Hne & Hnd & Hids) Hstep.
  apply scan_folder_spec in Hstep
    as (_ & new & _ & Hres & Hnd' & Hfresh & Hused).
  unfold manifest_ok. rewrite (all_files_add_folder_eq _ _ _ Hres).
  rewrite Hres. unfold add_folder. simpl.
  destruct new as [|r new]; simpl.
  - rewrite app_nil_r. repeat split; auto.
    intros r Hr. apply Hused. left. now apply Hids.
  - rewrite length_app, count_files_app, Hfolders, Hfiles. simpl.
    split; [lia|]. split; [unfold count_files; simpl; lia|].
    split; [apply Forall_app; split; [exact Hne | repeat constructor; discriminate]|].
    split.
    + rewrite map_app. apply NoDup_app. split; [exact Hnd|]. split; [|exact Hnd'].
      intros x Hx Hx'. apply list_elem_of_In, in_map_iff in Hx as (r1 & <- & Hr1).
      apply list_elem_of_In, in_map_iff in Hx' as (r2 & Heq & Hr2).
      apply (Hfresh r2 Hr2). rewrite Heq. now apply Hids.
    + intros r' Hr'. apply Hused. apply in_app_or in Hr' as [Hr'|Hr'].
      * left. now apply Hids.
      * right. now apply in_map.
Qed.

Lemma scan_walk_preserves items :
  forall st st',
    manifest_ok st ->
    scan_walk fuel ignore_patterns gitignore_patterns skip_hash items st
      = Ok st' ->
    manifest_ok st'.
Proof.
  induction items as [|item rest IH]; intros st st' Hok; simpl.
  - now intros [= <-].
  - destruct (scan_folder _ _ _ _ _ _) as [st1|e] eqn:Hstep; simpl;
      [|discriminate].
    apply IH. eapply scan_folder_preserves; eauto.
Qed.

(** The folders a walk appends are those of the visited directories that
    keep a file, in walk order, each with the records of its kept files. *)
Lemma scan_walk_spec items :
  forall st st',
    scan_walk fuel ignore_patterns gitignore_patterns skip_hash items st
      = Ok st' ->
    (skip_hash = true -> opened st' = opened st) /\
    exists appended,
      folders (result st') = folders (result st) ++ appended /\
      Forall2 (folder_of skip_hash ignore_patterns gitignore_patterns)
        (List.filter (has_kept_file ignore_patterns gitignore_patterns) items)
        appended.
Proof.
  induction items as [|item rest IH]; intros st st'; simpl.
  - intros [= <-]. split; [auto|]. exists []. rewrite app_nil_r.
    split; [reflexivity | constructor].
  - destruct (scan_folder _ _ _ _ _ _) as [st1|e] eqn:Hstep; simpl;
      [|discriminate].
    intros Hrest.
    apply scan_folder_spec in Hstep as (Hop1 & new & Hrec & Hres & _).
    apply IH in Hrest as (Hop & appended & Happ & Hfolders).
    split; [intros Hs; rewrite Hop, Hop1; auto|].
    rewrite Happ, Hres. unfold add_folder, has_kept_file.
    inversion Hrec as [Hk Hn | e0 r0 l0 new0 Hr0 Hrest0 Hk Hn]; subst new;
      simpl.
    + exists appended. split; [reflexivity | exact Hfolders].
    + exists ({| path := w_rel item; files := r0 :: new0 |} :: appended).
      rewrite <- app_assoc. split; [reflexivity|].
      constructor; [|exact Hfolders].
      split; [reflexivity|]. simpl. rewrite <- Hk. now constructor.
Qed.

Lemma scan_walk_all_skipped items st :
  Forall (fun item => any_pattern_in ignore_patterns (w_root item) = true)
         items ->
  scan_walk fuel ignore_patterns gitignore_patterns skip_hash items st
    = Ok st.
Proof.
  induction 1 as [|item rest Hitem _ IH]; simpl; [reflexivity|].
  unfold scan_folder. rewrite Hitem. simpl. exact IH.
Qed.

(** ** Completion

    When every pattern lies in the regex fragment and the identifier
    source never repeats itself, no turn of either loop fails, whatever
    the files are. *)

Hypothesis uuid4_injective : forall i j, uuid4 i = uuid4 j -> i = j.
Hypothesis patterns_supported :
  forallb pattern_supported gitignore_patterns = true.

Lemma is_ignored_loop_total check_path patterns :
  forallb pattern_supported patterns = true ->
  exists b, is_ignored_loop check_path patterns = Ok b.
Proof.
  induction patterns as [|p ps IH]; simpl; [eauto|].
  intros Hp. apply andb_true_iff in Hp as [Hp Hps].
  unfold pattern_supported in Hp. unfold Re.re_match.
  destruct (Re.re_compile _) as [ts|]; [|discriminate]. simpl.
  destruct (Re.matches ts check_path); eauto.
Qed.

Lemma is_ignored_total file_path rel_path :
  exists b, is_ignored file_path rel_path gitignore_patterns = Ok b.
Proof.
  pose proof patterns_supported as Hp. unfold is_ignored.
  destruct gitignore_patterns as [|p ps]; [eauto|].
  apply is_ignored_loop_total. exact Hp.
Qed.

Lemma scan_file_total root rel_path entry acc st :
  ids_from_source st ->
  exists acc' st',
    scan_file fuel ignore_patterns gitignore_patterns skip_hash
      root rel_path entry (acc, st) = Ok (acc', st') /\
    ids_from_source st'.
Proof.
  intros Hsrc. destruct entry as [filename node]. unfold scan_file.
  destruct (any_pattern_in ignore_patterns filename); [eauto|].
  destruct (is_ignored_total (path_join root filename)
              (if PyStr.truthy rel_path then path_join rel_path filename
               else filename)) as [b ->].
  simpl. destruct b; [eauto|].
  assert (Hfresh : uuid4 (uuid_draws st) ∉ used_ids st).
  { intros Hin. apply Hsrc in Hin as (j & Hj & Heq).
    apply uuid4_injective in Heq. lia. }
  assert (Hid : redraw_id fuel (used_ids st) (uuid4 (uuid_draws st))
                  (S (uuid_draws st))
                = Ok (uuid4 (uuid_draws st), S (uuid_draws st))).
  { destruct fuel; simpl; case_bool_decide; tauto. }
  rewrite Hid. simpl. destruct (file_entry_of _ _ _ _ _ _) as [fe reads].
  do 2 eexists. split; [reflexivity|].
  intros x. simpl. rewrite elem_of_union, elem_of_singleton.
  intros [->|Hx]; [exists (uuid_draws st); split; [lia|reflexivity]|].
  apply Hsrc in Hx as (j & Hj & ->). exists j. split; [lia|reflexivity].
Qed.

Lemma scan_files_total root rel_path entries :
  forall acc st,
    ids_from_source st ->
    exists acc' st',
      scan_files fuel ignore_patterns gitignore_patterns skip_hash
        root rel_path entries (acc, st) = Ok (acc', st') /\
      ids_from_source st'.
Proof.
  induction entries as [|entry rest IH]; intros acc st Hsrc; simpl; [eauto|].
  destruct (scan_file_total root rel_path entry acc st Hsrc)
    as (acc1 & st1 & -> & Hsrc1).
  simpl. now apply IH.
Qed.

Lemma scan_walk_total items :
  forall st,
    ids_from_source st ->
    exists st',
      scan_walk fuel ignore_patterns gitignore_patterns skip_hash items st
        = Ok st'.
Proof.
  induction items as [|item rest IH]; intros st Hsrc; simpl; [eauto|].
  unfold scan_folder.
  destruct (any_pattern_in ignore_patterns (w_root item)); simpl;
    [now apply IH|].
  destruct (scan_files_total (w_root item) (w_rel item) (w_files item)
              [] st Hsrc) as (acc1 & st1 & -> & Hsrc1).
  simpl. apply IH. exact Hsrc1.
Qed.

End ScanFacts.

(** ** Records and the files they come from *)

Section Records.

Context `{Runtime}.

Lemma record_of_fields skip_hash root rel_path entry r :
  record_of skip_hash root rel_path entry r ->
  folder r = rel_path /\
  file_name r = fst entry /\
  match f_stat (snd entry) with
  | None =>
      hash (metadata r) = "error" /\
      size_bytes (metadata r) = 0 /\
      description r = "Error processing file" /\
      security_observations r
        = "File could not be processed, may require manual review"
  | Some file_stats =>
      hash (metadata r)
        = fst (calculate_file_hash (path_join root (fst entry))
                 (f_content (snd entry)) skip_hash) /\
      size_bytes (metadata r) = st_size file_stats /\
      description r = "" /\
      security_observations r = ""
  end.
Proof.
  intros [file_id ->]. unfold file_entry_of.
  destruct (f_stat (snd entry)); [|simpl; repeat split; reflexivity].
  destruct (calculate_file_hash _ _ _); simpl; repeat split; reflexivity.
Qed.

Lemma Forall2_In_l {A B} (P : A -> B -> Prop) l k x :
  Forall2 P l k -> In x l -> exists y, In y k /\ P x y.
Proof.
  induction 1 as [|a b l k Hab _ IH]; simpl; [tauto|].
  intros [<-|Hx]; [eauto|]. destruct (IH Hx) as (y & Hy & Hp); eauto.
Qed.

Lemma Forall2_In_r {A B} (P : A -> B -> Prop) l k y :
  Forall2 P l k -> In y k -> exists x, In x l /\ P x y.
Proof.
  induction 1 as [|a b l k Hab _ IH]; simpl; [tauto|].
  intros [<-|Hy]; [eauto|]. destruct (IH Hy) as (x & Hx & Hp); eauto.
Qed.

Variable skip_hash : bool.
Variable ignore_patterns : list string.
Variable gitignore_patterns : list string.

(** Every kept file of a visited directory has its record. *)
Lemma folder_records_complete items fs item entry :
  Forall2 (folder_of skip_hash ignore_patterns gitignore_patterns)
    (List.filter (has_kept_file ignore_patterns gitignore_patterns) items)
    fs ->
  In item items ->
  In entry (kept_files ignore_patterns gitignore_patterns item) ->
  exists r,
    In r (flat_map files fs) /\
    record_of skip_hash (w_root item) (w_rel item) entry r.
Proof.
  intros Hfs Hitem Hentry.
  assert (Hkept : In item
    (List.filter (has_kept_file ignore_patterns gitignore_patterns) items)).
  { apply filter_In. split; [exact Hitem|]. unfold has_kept_file.
    destruct (kept_files _ _ item); [destruct Hentry | reflexivity]. }
  destruct (Forall2_In_l _ _ _ _ Hfs Hkept) as (f & Hf & _ & Hrec).
  destruct (Forall2_In_l _ _ _ _ Hrec Hentry) as (r & Hr & Hof).
  exists r. split; [|exact Hof]. apply in_flat_map. eauto.
Qed.

(** Every record is that of a kept file of a visited directory. *)
Lemma folder_records_sound items fs r :
  Forall2 (folder_of skip_hash ignore_patterns gitignore_patterns)
    (List.filter (has_kept_file ignore_patterns gitignore_patterns) items)
    fs ->
  In r (flat_map files fs) ->
  exists item entry,
    In item items /\
    In entry (kept_files ignore_patterns gitignore_patterns item) /\
    record_of skip_hash (w_root item) (w_rel item) entry r.
Proof.
  intros Hfs Hr. apply in_flat_map in Hr as (f & Hf & Hr).
  destruct (Forall2_In_r _ _ _ _ Hfs Hf) as (item & Hitem & _ & Hrec).
  destruct (Forall2_In_r _ _ _ _ Hrec Hr) as (entry & Hentry & Hof).
  apply filter_In in Hitem as [Hitem _]. eauto 6.
Qed.

Lemma folder_paths items fs :
  Forall2 (folder_of skip_hash ignore_patterns gitignore_patterns) items fs ->
  map path fs = map w_rel items.
Proof.
  induction 1 as [|item f items fs [Hp _] _ IH]; simpl; [reflexivity|].
  now rewrite Hp, IH.
Qed.

End Records.

(** ** The scan as a whole *)

Section Scan.

Context `{Runtime}.
Variable fuel : nat.
Variable tree : Dir.
Variable target_dir : string.
Variable ignore_patterns : option (list string).
Variable use_gitignore : bool.

Lemma initial_state_ok : manifest_ok (initial_state target_dir).
Proof.
  unfold manifest_ok, initial_state, all_files. simpl.
  repeat split; auto; try constructor. intros r [].
Qed.

Lemma scan_directory_state skip_hash res :
  scan_directory fuel tree target_dir ignore_patterns use_gitignore skip_hash
    = Ok res ->
  exists st,
    scan_state fuel tree target_dir ignore_patterns use_gitignore skip_hash
      = Ok st /\ res = result st.
Proof.
  unfold scan_directory.
  destruct (scan_state _ _ _ _ _ _) as [st|e]; simpl; [|discriminate].
  intros [= <-]. eauto.
Qed.

Lemma scan_state_spec skip_hash st :
  scan_state fuel tree target_dir ignore_patterns use_gitignore skip_hash
    = Ok st ->
  manifest_ok st /\
  (skip_hash = true -> opened st = []) /\
  Forall2 (folder_of skip_hash (effective_ignore ignore_patterns)
             (load_gitignore use_gitignore tree))
    (List.filter (has_kept_file (effective_ignore ignore_patterns)
                    (load_gitignore use_gitignore tree))
       (walk (effective_ignore ignore_patterns) target_dir "" tree))
    (folders (result st)).
Proof.
  unfold scan_state. intros Hscan. split; [|split].
  - eapply scan_walk_preserves; [apply initial_state_ok | exact Hscan].
  - apply scan_walk_spec in Hscan as [Hop _]. exact Hop.
  - apply scan_walk_spec in Hscan as (_ & appended & Happ & Hfs).
    simpl in Happ. now rewrite Happ.
Qed.

Lemma scan_directory_spec skip_hash res :
  scan_directory fuel tree target_dir ignore_patterns use_gitignore skip_hash
    = Ok res ->
  Forall2 (folder_of skip_hash (effective_ignore ignore_patterns)
             (load_gitignore use_gitignore tree))
    (List.filter (has_kept_file (effective_ignore ignore_patterns)
                    (load_gitignore use_gitignore tree))
       (walk (effective_ignore ignore_patterns) target_dir "" tree))
    (folders res).
Proof.
  intros Hscan. apply scan_directory_state in Hscan as (st & Hst & ->).
  now apply scan_state_spec in Hst as (_ & _ & Hfs).
Qed.

Lemma scan_directory_total skip_hash :
  (forall i j, uuid4 i = uuid4 j -> i = j) ->
  forallb pattern_supported (load_gitignore use_gitignore tree) = true ->
  exists res,
    scan_directory fuel tree target_dir ignore_patterns use_gitignore
      skip_hash = Ok res.
Proof.
  intros Hinj Hsup. unfold scan_directory, scan_state.
  destruct (scan_walk_total fuel (effective_ignore ignore_patterns)
              (load_gitignore use_gitignore tree) skip_hash Hinj Hsup
              (walk (effective_ignore ignore_patterns) target_dir "" tree)
              (initial_state target_dir)) as [st ->].
  - intros x Hx. simpl in Hx. now apply not_elem_of_empty in Hx.
  - simpl. eauto.
Qed.

Lemma walk_map_nodes f pats d :
  forall root rel,
    map (fun item => (w_root item, w_rel item))
        (walk pats root rel (map_nodes f d))
    = map (fun item => (w_root item, w_rel item)) (walk pats root rel d).
Proof.
  induction d as [fs ds IH] using Dir_induction. intros root rel. simpl.
  f_equal. induction ds as [|[n sub] ds IHds]; simpl; [reflexivity|].
  inversion IH as [|? ? Hhd Htl]; subst. rewrite !map_app. f_equal.
  - destruct (any_pattern_in pats n); [reflexivity | apply Hhd].
  - now apply IHds.
Qed.

(** C4. For every completed scan the counters of [scan_info] agree with
    the manifest: [total_folders] is the number of folder records and
    [total_files] is the sum of the lengths of their file lists. *)
Theorem scan_totals_consistent skip_hash res :
  scan_directory fuel tree target_dir ignore_patterns use_gitignore skip_hash
    = Ok res ->
  total_folders (scan_info res) = Z.of_nat (length (folders res)) /\
  total_files (scan_info res) = count_files (folders res).
Proof.
  intros Hscan. apply scan_directory_state in Hscan as (st & Hst & ->).
  apply scan_state_spec in Hst as ((Hfolders & Hfiles & _) & _).
  now split.
Qed.

(** C5. No folder record of a completed scan has an empty file list:
    every folder record belongs to a visited directory that keeps at
    least one file, so a directory all of whose entries are filtered out
    leaves no record. *)
Theorem no_empty_folder_record skip_hash res :
  scan_directory fuel tree target_dir ignore_patterns use_gitignore skip_hash
    = Ok res ->
  Forall (fun f => files f <> []) (folders res) /\
  forall f,
    In f (folders res) ->
    exists item,
      In item (walk (effective_ignore ignore_patterns) target_dir "" tree) /\
      path f = w_rel item /\
      kept_files (effective_ignore ignore_patterns)
        (load_gitignore use_gitignore tree) item <> [].
Proof.
  intros Hscan. split.
  - apply scan_directory_state in Hscan as (st & Hst & ->).
    now apply scan_state_spec in Hst as ((_ & _ & Hne & _) & _).
  - intros f Hf. apply scan_directory_spec in Hscan.
    destruct (Forall2_In_r _ _ _ _ Hscan Hf) as (item & Hitem & Hp & _).
    apply filter_In in Hitem as [Hitem Hkept]. exists item.
    split; [exact Hitem|]. split; [exact Hp|].
    unfold has_kept_file in Hkept.
    destruct (kept_files _ _ item); [discriminate | discriminate].
Qed.

(** C6. The identifiers of the file records of one completed scan,
    degraded records included, are pairwise distinct, whatever the
    identifier source hands out. *)
Theorem file_ids_distinct skip_hash res :
  scan_directory fuel tree target_dir ignore_patterns use_gitignore skip_hash
    = Ok res ->
  NoDup (map id (all_files res)).
Proof.
  intros Hscan. apply scan_directory_state in Hscan as (st & Hst & ->).
  now apply scan_state_spec in Hst as ((_ & _ & _ & Hnd & _) & _).
Qed.

(** C10, as amended.  The substring check is made on the paths the walk
    produces, which extend the scan root as it was passed to the scan, not
    its absolute path.  When the scan root's path as passed holds one of
    the ignore substrings, every visited directory is skipped and the
    scan returns a manifest with no folder and both counters at zero. *)
Theorem ignored_root_empty_manifest skip_hash :
  names_ok tree = true ->
  any_pattern_in (effective_ignore ignore_patterns) target_dir = true ->
  scan_directory fuel tree target_dir ignore_patterns use_gitignore skip_hash
  = Ok {| scan_info := {| target_directory := abspath target_dir;
                          total_folders := 0;
                          total_files := 0 |};
          folders := [] |}.
Proof.
  intros Hnames Hroot. unfold scan_directory, scan_state.
  rewrite scan_walk_all_skipped; [reflexivity|].
  now apply walk_below_ignored_root.
Qed.

(** C3, as amended.  In a completed scan every kept file has its record.
    A file whose metadata cannot be read gets the degraded record: hash
    [error], size zero, a non-empty [security_observations].  A file
    whose metadata can be read but whose content cannot keeps its real
    size and an empty [security_observations], with hash [hash_error].
    Neither failure stops the scan: it completes whenever the patterns
    lie in the regex fragment and the identifier source does not repeat
    itself, whatever the files are. *)
Theorem unreadable_file_records skip_hash :
  (forall res,
     scan_directory fuel tree target_dir ignore_patterns use_gitignore
       skip_hash = Ok res ->
     forall item entry,
       In item (walk (effective_ignore ignore_patterns) target_dir "" tree) ->
       In entry (kept_files (effective_ignore ignore_patterns)
                   (load_gitignore use_gitignore tree) item) ->
       exists r,
         In r (all_files res) /\
         folder r = w_rel item /\
         file_name r = fst entry /\
         match f_stat (snd entry) with
         | None =>
             hash (metadata r) = "error" /\
             size_bytes (metadata r) = 0 /\
             security_observations r <> ""
         | Some file_stats =>
             size_bytes (metadata r) = st_size file_stats /\
             security_observations r = "" /\
             (skip_hash = false -> f_content (snd entry) = None ->
              hash (metadata r) = "hash_error")
         end) /\
  ((forall i j, uuid4 i = uuid4 j -> i = j) ->
   forallb pattern_supported (load_gitignore use_gitignore tree) = true ->
   exists res,
     scan_directory fuel tree target_dir ignore_patterns use_gitignore
       skip_hash = Ok res).
Proof.
  split; [|apply scan_directory_total].
  intros res Hscan item entry Hitem Hentry.
  apply scan_directory_spec in Hscan.
  destruct (folder_records_complete _ _ _ _ _ _ _ Hscan Hitem Hentry)
    as (r & Hr & Hof).
  exists r. split; [exact Hr|].
  apply record_of_fields in Hof as (Hfolder & Hname & Hfields).
  split; [exact Hfolder|]. split; [exact Hname|].
  destruct (f_stat (snd entry)) as [file_stats|].
  - destruct Hfields as (Hhash & Hsize & _ & Hobs).
    split; [exact Hsize|]. split; [exact Hobs|].
    intros -> Hc. rewrite Hhash, Hc. reflexivity.
  - destruct Hfields as (Hhash & Hsize & _ & Hobs).
    split; [exact Hhash|]. split; [exact Hsize|]. now rewrite Hobs.
Qed.

(** C7, as amended.  With [skip_hash] set, [calculate_file_hash] opens no
    file, and every record of the completed scan carries the hash
    [skipped], except the degraded record of a file whose metadata could
    not be read, which carries [error]. *)
Theorem skip_hash_records st :
  scan_state fuel tree target_dir ignore_patterns use_gitignore true
    = Ok st ->
  opened st = [] /\
  forall r,
    In r (all_files (result st)) ->
    exists item entry,
      In item (walk (effective_ignore ignore_patterns) target_dir "" tree) /\
      In entry (kept_files (effective_ignore ignore_patterns)
                  (load_gitignore use_gitignore tree) item) /\
      folder r = w_rel item /\
      file_name r = fst entry /\
      hash (metadata r)
        = match f_stat (snd entry) with
          | Some _ => "skipped"
          | None => "error"
          end.
Proof.
  intros Hscan. apply scan_state_spec in Hscan as (_ & Hop & Hfs).
  split; [now apply Hop|]. intros r Hr.
  destruct (folder_records_sound _ _ _ _ _ _ Hfs Hr)
    as (item & entry & Hitem & Hentry & Hof).
  exists item, entry. split; [exact Hitem|]. split; [exact Hentry|].
  apply record_of_fields in Hof as (Hfolder & Hname & Hfields).
  split; [exact Hfolder|]. split; [exact Hname|].
  destruct (f_stat (snd entry)); now destruct Hfields as [-> _].
Qed.

(** C8, as amended.  In a completed scan the [description] of a record is
    the empty string when the file's metadata could be read; the degraded
    record of a file whose metadata could not be read carries the text
    [Error processing file]. *)
Theorem description_placeholder skip_hash res :
  scan_directory fuel tree target_dir ignore_patterns use_gitignore skip_hash
    = Ok res ->
  forall r,
    In r (all_files res) ->
    exists item entry,
      In item (walk (effective_ignore ignore_patterns) target_dir "" tree) /\
      In entry (kept_files (effective_ignore ignore_patterns)
                  (load_gitignore use_gitignore tree) item) /\
      folder r = w_rel item /\
      file_name r = fst entry /\
      description r
        = match f_stat (snd entry) with
          | Some _ => ""
          | None => "Error processing file"
          end.
Proof.
  intros Hscan r Hr. apply scan_directory_spec in Hscan.
  destruct (folder_records_sound _ _ _ _ _ _ Hscan Hr)
    as (item & entry & Hitem & Hentry & Hof).
  exists item, entry. split; [exact Hitem|]. split; [exact Hentry|].
  apply record_of_fields in Hof as (Hfolder & Hname & Hfields).
  split; [exact Hfolder|]. split; [exact Hname|].
  destruct (f_stat (snd entry)); now destruct Hfields as (_ & _ & -> & _).
Qed.

Lemma filter_nonempty_existsb {A} (f : A -> bool) l :
  match List.filter f l with [] => false | _ => true end = existsb f l.
Proof.
  induction l as [|x l IH]; [reflexivity|]. simpl.
  destruct (f x); [reflexivity | exact IH].
Qed.

Lemma has_kept_file_explicit ign gi item :
  has_kept_file ign gi item
  = negb (any_pattern_in ign (w_root item)) &&
    existsb (survives ign gi (w_root item) (w_rel item)) (w_files item).
Proof.
  unfold has_kept_file, kept_files.
  destruct (any_pattern_in ign (w_root item)); [reflexivity|].
  apply filter_nonempty_existsb.
Qed.

(** C9, as amended.  The directories a scan visits are decided by the
    tree and the substring ignore list alone: rewriting the files of the
    tree, the ignore file among them, leaves the sequence of visited
    directories unchanged.  Ignore-file rules are applied to file paths
    only; the folder records of a completed scan are those of the visited
    directories that are not skipped at line 158 (their own path holds no
    ignore substring) and in which at least one file passes both
    filters. *)
Theorem gitignore_filters_files_only skip_hash :
  (forall f,
     map (fun item => (w_root item, w_rel item))
         (walk (effective_ignore ignore_patterns) target_dir ""
               (map_nodes f tree))
     = map (fun item => (w_root item, w_rel item))
           (walk (effective_ignore ignore_patterns) target_dir "" tree)) /\
  (forall res,
     scan_directory fuel tree target_dir ignore_patterns use_gitignore
       skip_hash = Ok res ->
     map path (folders res)
     = map w_rel
         (List.filter
            (fun item =>
               negb (any_pattern_in (effective_ignore ignore_patterns)
                       (w_root item)) &&
               existsb
                 (survives (effective_ignore ignore_patterns)
                    (load_gitignore use_gitignore tree)
                    (w_root item) (w_rel item))
                 (w_files item))
            (walk (effective_ignore ignore_patterns) target_dir "" tree))).
Proof.
  split.
  - intros f. apply walk_map_nodes.
  - intros res Hscan. apply scan_directory_spec in Hscan.
    rewrite (folder_paths _ _ _ _ _ Hscan). f_equal.
    apply filter_ext. intros item. apply has_kept_file_explicit.
Qed.

End Scan.

(** ** The matcher on its own *)

(** The first rule that matches decides; the rules after it are never
    consulted. *)
Lemma first_matching_rule_decides check_path before rule after :
  Forall (fun q =>
            Re.re_match
              ("^" +:+ regex_of_pattern
                         (if PyStr.startswith "!" q then PyStr.tail q else q)
                   +:+ "$") check_path = Some false) before ->
  Re.re_match
    ("^" +:+ regex_of_pattern
               (if PyStr.startswith "!" rule then PyStr.tail rule else rule)
         +:+ "$") check_path = Some true ->
  is_ignored_loop check_path (before ++ rule :: after)
  = Ok (negb (PyStr.startswith "!" rule)).
Proof.
  intros Hbefore Hrule.
  induction Hbefore as [|q before Hq _ IH]; simpl.
  - now rewrite Hrule.
  - now rewrite Hq.
Qed.

(** C1.  On the ignore file [*.tmp], [!keep.tmp] the first rule matches
    [keep.tmp] and the loop returns at once: the negated rule after it is
    never reached, and neither [keep.tmp] nor [other.tmp] is recorded. *)
Theorem negated_rule_after_match_unreached :
  is_ignored "proj/keep.tmp" "keep.tmp" ["*.tmp"; "!keep.tmp"] = Ok true /\
  is_ignored "proj/other.tmp" "other.tmp" ["*.tmp"; "!keep.tmp"] = Ok true /\
  load_gitignore true Sample.tmp_tree = ["*.tmp"; "!keep.tmp"] /\
  scan_directory (H:=Sample.runtime) 0 Sample.tmp_tree "proj" None true false
  = Ok {| scan_info := {| target_directory := "/work/proj";
                          total_folders := 0;
                          total_files := 0 |};
          folders := [] |}.
Proof. repeat split; vm_compute; reflexivity. Qed.

(** C2.  On the ignore file [build/] the rule becomes the expression
    [^.*build$], which does not match [./build/output.bin]; the directory
    itself is never offered to the matcher, and the file under [build] is
    recorded. *)
Theorem directory_rule_keeps_files_below :
  load_gitignore true Sample.build_tree = ["build/"] /\
  regex_of_pattern "build/" = ".*build" /\
  is_ignored "proj/build/output.bin" "build/output.bin" ["build/"] = Ok false /\
  exists res r,
    scan_directory (H:=Sample.runtime) 0 Sample.build_tree "proj" None
      true false = Ok res /\
    In r (all_files res) /\
    folder r = "build" /\
    file_name r = "output.bin".
Proof.
  repeat split; try (vm_compute; reflexivity).
  do 2 eexists. split; [vm_compute; reflexivity|].
  split; [left; reflexivity|]. split; reflexivity.
Qed.

(** ** The claims on sample inputs *)

Lemma tally_length k : String.length (Sample.tally k) = k.
Proof. induction k as [|k IH]; simpl; [reflexivity | now rewrite IH]. Qed.

Lemma sample_uuid4_injective i j :
  uuid4 (Runtime := Sample.runtime) i = uuid4 (Runtime := Sample.runtime) j ->
  i = j.
Proof.
  unfold uuid4, Sample.runtime. intros Heq.
  rewrite !append_cons, !append_nil in Heq. injection Heq as Heq.
  rewrite <- (tally_length i), <- (tally_length j). now rewrite Heq.
Qed.

Lemma scan_totals_consistent_witness :
  exists res,
    scan_directory (H:=Sample.colliding_runtime) 1 Sample.mixed_tree "proj"
      None true false = Ok res /\
    total_folders (scan_info res) = Z.of_nat (length (folders res)) /\
    total_files (scan_info res) = count_files (folders res).
Proof.
  eexists. split; [vm_compute; reflexivity|].
  apply (scan_totals_consistent (H:=Sample.colliding_runtime) 1
           Sample.mixed_tree "proj" None true false).
  vm_compute. reflexivity.
Defined.

Lemma no_empty_folder_record_witness :
  exists res,
    scan_directory (H:=Sample.runtime) 0 Sample.mixed_tree "proj"
      None true false = Ok res /\
    Forall (fun f => files f <> []) (folders res) /\
    forall f,
      In f (folders res) ->
      exists item,
        In item (walk (effective_ignore None) "proj" "" Sample.mixed_tree) /\
        path f = w_rel item /\
        kept_files (effective_ignore None)
          (load_gitignore true Sample.mixed_tree) item <> [].
Proof.
  eexists. split; [vm_compute; reflexivity|].
  apply (no_empty_folder_record (H:=Sample.runtime) 0 Sample.mixed_tree
           "proj" None true false).
  vm_compute. reflexivity.
Defined.

Lemma file_ids_distinct_witness :
  exists res,
    scan_directory (H:=Sample.colliding_runtime) 1 Sample.mixed_tree "proj"
      None true false = Ok res /\
    NoDup (map id (all_files res)).
Proof.
  eexists. split; [vm_compute; reflexivity|].
  apply (file_ids_distinct (H:=Sample.colliding_runtime) 1 Sample.mixed_tree
           "proj" None true false).
  vm_compute. reflexivity.
Defined.

Lemma ignored_root_empty_manifest_witness :
  names_ok Sample.mixed_tree = true /\
  any_pattern_in (effective_ignore None) "/home/u/venv/proj" = true /\
  scan_directory (H:=Sample.runtime) 0 Sample.mixed_tree "/home/u/venv/proj"
    None true false
  = Ok {| scan_info := {| target_directory := "/home/u/venv/proj";
                          total_folders := 0;
                          total_files := 0 |};
          folders := [] |}.
Proof.
  split; [reflexivity|]. split; [reflexivity|].
  apply (ignored_root_empty_manifest (H:=Sample.runtime) 0 Sample.mixed_tree
           "/home/u/venv/proj" None true false); reflexivity.
Defined.

Lemma unreadable_file_records_witness :
  exists res,
    scan_directory (H:=Sample.runtime) 0 Sample.mixed_tree "proj"
      None true false = Ok res /\
    (exists r,
       In r (all_files res) /\ file_name r = "gone.txt" /\
       hash (metadata r) = "error" /\ size_bytes (metadata r) = 0 /\
       security_observations r <> "") /\
    (exists r,
       In r (all_files res) /\ file_name r = "secret.key" /\
       size_bytes (metadata r) = 42 /\ security_observations r = "" /\
       hash (metadata r) = "hash_error").
Proof.
  pose proof (unreadable_file_records (H:=Sample.runtime) 0 Sample.mixed_tree
                "proj" None true false) as [Hrec Htotal].
  destruct (Htotal sample_uuid4_injective ltac:(vm_compute; reflexivity))
    as [res Hres].
  exists res. split; [exact Hres|].
  pose (top := {| w_root := "proj"; w_rel := "";
                  w_files := d_files Sample.mixed_tree |}).
  split.
  - destruct (Hrec res Hres top ("gone.txt", Sample.vanished))
      as (r & Hr & _ & Hname & Hhash & Hsize & Hobs);
      [left; reflexivity | vm_compute; tauto |].
    exists r. repeat split; assumption.
  - destruct (Hrec res Hres top ("secret.key", Sample.locked 42))
      as (r & Hr & _ & Hname & Hsize & Hobs & Hhash);
      [left; reflexivity | vm_compute; tauto |].
    exists r. repeat split; try assumption. now apply Hhash.
Defined.

Lemma skip_hash_records_witness :
  exists st,
    scan_state (H:=Sample.runtime) 0 Sample.mixed_tree "proj" None true true
      = Ok st /\
    opened st = [] /\
    forall r,
      In r (all_files (result st)) ->
      exists item entry,
        In item (walk (effective_ignore None) "proj" "" Sample.mixed_tree) /\
        In entry (kept_files (effective_ignore None)
                    (load_gitignore true Sample.mixed_tree) item) /\
        folder r = w_rel item /\
        file_name r = fst entry /\
        hash (metadata r)
          = match f_stat (snd entry) with
            | Some _ => "skipped"
            | None => "error"
            end.
Proof.
  destruct (scan_state (H:=Sample.runtime) 0 Sample.mixed_tree "proj" None
              true true) as [st|e] eqn:Hst.
  - exists st. split; [reflexivity|].
    apply (skip_hash_records (H:=Sample.runtime) 0 Sample.mixed_tree "proj"
             None true). exact Hst.
  - exfalso. vm_compute in Hst. discriminate.
Defined.

Lemma description_placeholder_witness :
  exists res,
    scan_directory (H:=Sample.runtime) 0 Sample.mixed_tree "proj"
      None true false = Ok res /\
    forall r,
      In r (all_files res) ->
      exists item entry,
        In item (walk (effective_ignore None) "proj" "" Sample.mixed_tree) /\
        In entry (kept_files (effective_ignore None)
                    (load_gitignore true Sample.mixed_tree) item) /\
        folder r = w_rel item /\
        file_name r = fst entry /\
        description r
          = match f_stat (snd entry) with
            | Some _ => ""
            | None => "Error processing file"
            end.
Proof.
  eexists. split; [vm_compute; reflexivity|].
  apply (description_placeholder (H:=Sample.runtime) 0 Sample.mixed_tree
           "proj" None true false).
  vm_compute. reflexivity.
Defined.

Lemma gitignore_filters_files_only_witness :
  map (fun item => (w_root item, w_rel item))
      (walk (effective_ignore None) "proj" "" Sample.cache_tree_ignoring_tmp)
  = map (fun item => (w_root item, w_rel item))
        (walk (effective_ignore None) "proj" "" Sample.cache_tree) /\
  exists res,
    scan_directory (H:=Sample.runtime) 0 Sample.mixed_tree "proj"
      None true false = Ok res /\
    map path (folders res) = [""; "src"; "src/pkg"].
Proof.
  split.
  - apply (gitignore_filters_files_only (H:=Sample.runtime) 0
             Sample.cache_tree "proj" None true false).
  - eexists. split; [vm_compute; reflexivity|].
    rewrite (proj2 (gitignore_filters_files_only (H:=Sample.runtime) 0
                      Sample.mixed_tree "proj" None true false) _
               ltac:(vm_compute; reflexivity)).
    vm_compute. reflexivity.
Defined.

(** ** Where the claims as stated fail *)

(** C3 as stated: a file whose content cannot be read, but whose metadata
    can, is recorded with hash [hash_error], its real size and an empty
    [security_observations]. *)
Lemma unreadable_content_not_degraded :
  f_content (Sample.locked 42) = None /\
  exists res r,
    scan_directory (H:=Sample.runtime) 0 Sample.locked_tree "proj"
      None true false = Ok res /\
    all_files res = [r] /\
    file_name r = "secret.key" /\
    ~ (hash (metadata r) = "error" /\
       size_bytes (metadata r) = 0 /\
       security_observations r <> "").
Proof.
  split; [reflexivity|]. do 2 eexists.
  split; [vm_compute; reflexivity|]. split; [reflexivity|].
  split; [reflexivity|]. intros (Hhash & _). discriminate Hhash.
Qed.

(** C7 as stated: with [skip_hash] set, the record of a file whose
    metadata cannot be read has hash [error], not [skipped]. *)
Lemma skip_hash_degraded_record_not_skipped :
  exists res r,
    scan_directory (H:=Sample.runtime) 0 Sample.vanished_tree "proj"
      None true true = Ok res /\
    In r (all_files res) /\
    hash (metadata r) <> "skipped".
Proof.
  do 2 eexists. split; [vm_compute; reflexivity|].
  split; [left; reflexivity|]. discriminate.
Qed.

(** C8 as stated: the degraded record has a non-empty [description]. *)
Lemma degraded_record_description_not_empty :
  exists res r,
    scan_directory (H:=Sample.runtime) 0 Sample.vanished_tree "proj"
      None true false = Ok res /\
    In r (all_files res) /\
    description r <> "".
Proof.
  do 2 eexists. split; [vm_compute; reflexivity|].
  split; [left; reflexivity|]. discriminate.
Qed.

(** C9 as stated: two trees that differ in the ignore file only yield
    different sets of folder records. *)
Lemma folder_records_depend_on_gitignore :
  exists res res',
    scan_directory (H:=Sample.runtime) 0 Sample.cache_tree "proj"
      None true false = Ok res /\
    scan_directory (H:=Sample.runtime) 0 Sample.cache_tree_ignoring_tmp "proj"
      None true false = Ok res' /\
    map path (folders res) = ["cache"] /\
    map path (folders res') = [].
Proof.
  do 2 eexists. split; [vm_compute; reflexivity|].
  split; [vm_compute; reflexivity|]. split; reflexivity.
Qed.

(** ** More on the matcher *)

Lemma first_matching_rule_decides_witness :
  Forall (fun q =>
            Re.re_match
              ("^" +:+ regex_of_pattern
                         (if PyStr.startswith "!" q then PyStr.tail q else q)
                   +:+ "$") "./keep.tmp" = Some false) ["*.log"; "!docs"] /\
  Re.re_match
    ("^" +:+ regex_of_pattern
               (if PyStr.startswith "!" "*.tmp" then PyStr.tail "*.tmp"
                else "*.tmp")
         +:+ "$") "./keep.tmp" = Some true /\
  is_ignored_loop "./keep.tmp" (["*.log"; "!docs"] ++ "*.tmp" :: ["!keep.tmp"])
  = Ok (negb (PyStr.startswith "!" "*.tmp")).
Proof.
  assert (Hbefore :
    Forall (fun q =>
              Re.re_match
                ("^" +:+ regex_of_pattern
                           (if PyStr.startswith "!" q then PyStr.tail q else q)
                     +:+ "$") "./keep.tmp" = Some false) ["*.log"; "!docs"])
    by (repeat constructor).
  assert (Hrule :
    Re.re_match
      ("^" +:+ regex_of_pattern
                 (if PyStr.startswith "!" "*.tmp" then PyStr.tail "*.tmp"
                  else "*.tmp")
           +:+ "$") "./keep.tmp" = Some true) by reflexivity.
  split; [exact Hbefore|]. split; [exact Hrule|].
  exact (first_matching_rule_decides "./keep.tmp" ["*.log"; "!docs"] "*.tmp"
           ["!keep.tmp"] Hbefore Hrule).
Defined.

(** A path is excluded only by a rule without negation mark that matches
    it and that no earlier rule matches; a list of negated rules alone
    excludes nothing. *)
Theorem excluded_by_positive_rule file_path rel_path patterns :
  is_ignored file_path rel_path patterns = Ok true ->
  exists before rule after,
    patterns = before ++ rule :: after /\
    PyStr.startswith "!" rule = false /\
    rule_verdict (check_path_of rel_path) rule = Some true /\
    Forall (fun q => rule_verdict (check_path_of rel_path) q = Some false)
           before.
Proof.
  unfold is_ignored. fold (check_path_of rel_path).
  generalize (check_path_of rel_path) as check_path. intros check_path.
  assert (Hloop : is_ignored_loop check_path patterns = Ok true ->
    exists before rule after,
      patterns = before ++ rule :: after /\
      PyStr.startswith "!" rule = false /\
      rule_verdict check_path rule = Some true /\
      Forall (fun q => rule_verdict check_path q = Some false) before).
  { induction patterns as [|p ps IH]; simpl; [discriminate|].
    fold (rule_body p). fold (rule_verdict check_path p).
    destruct (rule_verdict check_path p) as [[|]|] eqn:Hp; try discriminate.
    - intros [= Hneg]. apply negb_true_iff in Hneg.
      exists [], p, ps. repeat split; auto.
    - intros Hrest. destruct (IH Hrest) as (before & rule & after & -> & H1 & H2 & H3).
      exists (p :: before), rule, after. repeat split; auto. }
  destruct patterns as [|p ps]; [discriminate | exact Hloop].
Qed.

Lemma excluded_by_positive_rule_witness :
  is_ignored "proj/a.tmp" "a.tmp" ["!a.log"; "*.tmp"] = Ok true /\
  exists before rule after,
    ["!a.log"; "*.tmp"] = before ++ rule :: after /\
    PyStr.startswith "!" rule = false /\
    rule_verdict (check_path_of "a.tmp") rule = Some true /\
    Forall (fun q => rule_verdict (check_path_of "a.tmp") q = Some false)
           before.
Proof.
  split; [reflexivity|].
  apply (excluded_by_positive_rule "proj/a.tmp" "a.tmp" ["!a.log"; "*.tmp"]).
  reflexivity.
Defined.

(** *** The trailing slash *)

Lemma append_empty_r (s : string) : s +:+ "" = s.
Proof. induction s as [|a s IH]; [reflexivity|]. now rewrite append_cons, IH. Qed.

Lemma append_assoc (a b c : string) : (a +:+ b) +:+ c = a +:+ (b +:+ c).
Proof.
  induction a as [|x a IH]; [reflexivity|]. now rewrite !append_cons, IH.
Qed.

Lemma prefix_cons a b p s :
  String.prefix (String a p) (String b s)
  = if ascii_dec a b then String.prefix p s else false.
Proof. reflexivity. Qed.

Lemma replace_app old new s t :
  PyStr.replace old new (s +:+ t)
  = PyStr.replace old new s +:+ PyStr.replace old new t.
Proof.
  induction s as [|a s IH]; [reflexivity|].
  rewrite append_cons. simpl. rewrite IH.
  destruct (Ascii.eqb a old); [now rewrite append_assoc | reflexivity].
Qed.

Lemma endswith_cons c a s :
  s <> "" -> PyStr.endswith c (String a s) = PyStr.endswith c s.
Proof. destruct s; [congruence | reflexivity]. Qed.

Lemma endswith_app c s t :
  t <> "" -> PyStr.endswith c (s +:+ t) = PyStr.endswith c t.
Proof.
  intros Ht. induction s as [|a s IH]; [reflexivity|].
  rewrite append_cons, endswith_cons; [exact IH|].
  destruct s; [exact Ht | discriminate].
Qed.

Lemma drop_last_snoc s c : PyStr.drop_last (s +:+ String c "") = s.
Proof.
  induction s as [|a s IH]; [reflexivity|].
  rewrite append_cons. simpl. rewrite IH.
  destruct s; reflexivity.
Qed.

Lemma replace_empty_iff old new s :
  new <> "" -> PyStr.replace old new s = "" -> s = "".
Proof.
  intros Hnew. destruct s as [|a s]; [reflexivity|]. simpl.
  destruct (Ascii.eqb a old); [|discriminate].
  destruct new; [congruence | discriminate].
Qed.

(** A replacement that neither removes nor introduces a final [/]. *)
Lemma endswith_replace old new s :
  new <> "" ->
  PyStr.endswith "/" new = false ->
  Ascii.eqb "/" old = false ->
  PyStr.endswith "/" (PyStr.replace old new s) = PyStr.endswith "/" s.
Proof.
  intros Hnew Hend Hold. induction s as [|a s IH]; [reflexivity|].
  destruct s as [|b s].
  - simpl. destruct (Ascii.eqb a old) eqn:Ha.
    + apply Ascii.eqb_eq in Ha as ->. rewrite append_empty_r, Hend.
      symmetry. rewrite Ascii.eqb_sym. exact Hold.
    + reflexivity.
  - rewrite (endswith_cons _ a (String b s)) by discriminate.
    rewrite <- IH.
    change (PyStr.replace old new (String a (String b s)))
      with (if Ascii.eqb a old
            then new +:+ PyStr.replace old new (String b s)
            else String a (PyStr.replace old new (String b s))).
    assert (Hne : PyStr.replace old new (String b s) <> "")
      by (intros E; apply replace_empty_iff in E; [discriminate | exact Hnew]).
    destruct (Ascii.eqb a old).
    + now apply endswith_app.
    + now apply endswith_cons.
Qed.

Lemma glob_to_regex_app s t :
  glob_to_regex (s +:+ t) = glob_to_regex s +:+ glob_to_regex t.
Proof. unfold glob_to_regex. now rewrite !replace_app. Qed.

Lemma glob_to_regex_endswith_slash s :
  PyStr.endswith "/" (glob_to_regex s) = PyStr.endswith "/" s.
Proof.
  unfold glob_to_regex.
  rewrite !endswith_replace; try reflexivity; discriminate.
Qed.

Lemma regex_of_pattern_unfold pattern :
  regex_of_pattern pattern
  = let r := glob_to_regex pattern in
    let r := if PyStr.endswith "/" r then PyStr.drop_last r else r in
    if negb (PyStr.contains "/" r) then ".*" +:+ r else r.
Proof. reflexivity. Qed.

Lemma regex_of_pattern_trailing_slash pattern :
  PyStr.endswith "/" pattern = false ->
  regex_of_pattern (pattern +:+ "/") = regex_of_pattern pattern.
Proof.
  intros Hend. rewrite !regex_of_pattern_unfold. cbv zeta.
  rewrite glob_to_regex_app.
  change (glob_to_regex "/") with "/".
  rewrite endswith_app by discriminate.
  change (PyStr.endswith "/" "/") with true. cbv iota.
  rewrite drop_last_snoc, glob_to_regex_endswith_slash, Hend.
  reflexivity.
Qed.

(** A rule with a trailing slash gives the same verdicts as the rule
    without it: the slash is removed and nothing else records that the rule
    was meant for directories. *)
Theorem trailing_slash_has_no_effect check_path rule rest :
  PyStr.endswith "/" rule = false ->
  is_ignored_loop check_path ((rule +:+ "/") :: rest)
  = is_ignored_loop check_path (rule :: rest).
Proof.
  intros Hend.
  assert (Hneg : PyStr.startswith "!" (rule +:+ "/") = PyStr.startswith "!" rule).
  { destruct rule as [|a r]; [reflexivity|].
    rewrite append_cons. unfold PyStr.startswith. rewrite !prefix_cons.
    destruct (ascii_dec "!" a); [now rewrite !prefix_nil | reflexivity]. }
  assert (Hbody : regex_of_pattern (rule_body (rule +:+ "/"))
                  = regex_of_pattern (rule_body rule)).
  { unfold rule_body. rewrite Hneg.
    destruct (PyStr.startswith "!" rule) eqn:Hbang.
    - destruct rule as [|a r]; [discriminate|].
      rewrite append_cons. simpl.
      apply regex_of_pattern_trailing_slash.
      destruct r as [|b r]; [reflexivity|].
      now rewrite endswith_cons in Hend by discriminate.
    - now apply regex_of_pattern_trailing_slash. }
  simpl. fold (rule_body (rule +:+ "/")). fold (rule_body rule).
  now rewrite Hneg, Hbody.
Qed.

Lemma trailing_slash_has_no_effect_witness :
  PyStr.endswith "/" "build" = false /\
  is_ignored_loop "./src/build" (("build" +:+ "/") :: ["*.log"])
  = is_ignored_loop "./src/build" ("build" :: ["*.log"]).
Proof.
  split; [reflexivity|].
  apply (trailing_slash_has_no_effect "./src/build" "build" ["*.log"]).
  reflexivity.
Defined.

(** *** Rules without wildcards *)

Lemma parse_body_literal c r :
  Re.is_meta c = false ->
  Re.parse_body (String c r) = cons (Re.TLit c) <$> Re.parse_body r.
Proof.
  intros Hc.
  destruct c as [[] [] [] [] [] [] [] []];
    try (vm_compute in Hc; discriminate Hc); reflexivity.
Qed.

Lemma not_meta_neq c m :
  Re.is_meta c = false -> Re.is_meta m = true -> Ascii.eqb c m = false.
Proof.
  intros Hc Hm. destruct (Ascii.eqb c m) eqn:E; [|reflexivity].
  apply Ascii.eqb_eq in E. congruence.
Qed.

Lemma glob_to_regex_cons_literal c s :
  Re.is_meta c = false ->
  glob_to_regex (String c s) = String c (glob_to_regex s).
Proof.
  intros Hc. unfold glob_to_regex. simpl.
  rewrite (not_meta_neq c "." Hc eq_refl). simpl.
  rewrite (not_meta_neq c "*" Hc eq_refl). simpl.
  now rewrite (not_meta_neq c "?" Hc eq_refl).
Qed.

Lemma glob_to_regex_literal s :
  all_chars literal_char s = true -> glob_to_regex s = s.
Proof.
  induction s as [|c s IH]; [reflexivity|]. simpl. intros H.
  apply andb_true_iff in H as [Hc Hs]. apply negb_true_iff in Hc.
  now rewrite glob_to_regex_cons_literal, IH.
Qed.

Lemma endswith_contains c s :
  PyStr.endswith c s = true -> PyStr.contains (String c "") s = true.
Proof.
  induction s as [|a s IH]; [discriminate|]. intros H.
  rewrite contains_cons. destruct s as [|b s].
  - simpl in H. apply Ascii.eqb_eq in H as ->.
    rewrite prefix_cons, prefix_nil.
    destruct (ascii_dec c c); [reflexivity | congruence].
  - rewrite endswith_cons in H by discriminate.
    rewrite (IH H). apply orb_true_r.
Qed.

Lemma matches_literal c ts a s :
  Re.matches (Re.TLit c :: ts) (String a s)
  = Ascii.eqb a c && Re.matches ts s.
Proof. reflexivity. Qed.

Lemma matches_any_star ts s :
  Re.matches (Re.TAnyStar :: ts) s
  = Re.matches ts s ||
    match s with
    | String a s' =>
        negb (Ascii.eqb a Re.newline) && Re.matches (Re.TAnyStar :: ts) s'
    | EmptyString => false
    end.
Proof. destruct s; reflexivity. Qed.

Lemma matches_star_skip ts pre s :
  no_newline pre = true ->
  Re.matches ts s = true ->
  Re.matches (Re.TAnyStar :: ts) (pre +:+ s) = true.
Proof.
  intros Hpre Hs. induction pre as [|a pre IH].
  - rewrite append_nil, matches_any_star, Hs. reflexivity.
  - simpl in Hpre. apply andb_true_iff in Hpre as [Ha Hpre].
    rewrite append_cons, matches_any_star, Ha, (IH Hpre).
    apply orb_true_r.
Qed.

(** A literal text followed by the closing [$] compiles to tokens that
    match exactly that text. *)
Lemma parse_body_literal_text p :
  all_chars literal_char p = true ->
  exists ts,
    Re.parse_body (p +:+ "$") = Some ts /\ Re.matches ts p = true.
Proof.
  induction p as [|c p IH]; intros H.
  - exists []. split; reflexivity.
  - simpl in H. apply andb_true_iff in H as [Hc Hp].
    apply negb_true_iff in Hc. destruct (IH Hp) as (ts & Hts & Hm).
    exists (Re.TLit c :: ts). rewrite append_cons, parse_body_literal, Hts by exact Hc.
    split; [reflexivity|]. simpl. now rewrite Ascii.eqb_refl, Hm.
Qed.

Lemma re_compile_anchored body :
  Re.re_compile ("^" +:+ body) = Re.parse_body body.
Proof. reflexivity. Qed.

Lemma parse_body_any_star r :
  Re.parse_body (".*" +:+ r) = cons Re.TAnyStar <$> Re.parse_body r.
Proof. reflexivity. Qed.

Lemma path_join_dot rel_path :
  PyStr.startswith "/" rel_path = false ->
  path_join "." rel_path = "./" +:+ rel_path.
Proof. unfold path_join. now intros ->. Qed.

Lemma is_ignored_nonempty file_path rel_path patterns :
  patterns <> [] ->
  is_ignored file_path rel_path patterns
  = is_ignored_loop (check_path_of rel_path) patterns.
Proof. destruct patterns; [congruence | reflexivity]. Qed.

Lemma is_ignored_loop_cons check_path rule rest :
  is_ignored_loop check_path (rule :: rest)
  = match rule_verdict check_path rule with
    | None => Err (RegexOutsideFragment (regex_of_pattern (rule_body rule)))
    | Some true => Ok (negb (PyStr.startswith "!" rule))
    | Some false => is_ignored_loop check_path rest
    end.
Proof. reflexivity. Qed.

(** Rules that do not match are passed over. *)
Lemma is_ignored_loop_skip check_path before rest :
  Forall (fun q => rule_verdict check_path q = Some false) before ->
  is_ignored_loop check_path (before ++ rest)
  = is_ignored_loop check_path rest.
Proof.
  induction 1 as [|q before Hq _ IH]; [reflexivity|].
  rewrite <- app_comm_cons, is_ignored_loop_cons, Hq. exact IH.
Qed.

Lemma literal_rule_verdict pre p :
  all_chars literal_char p = true ->
  PyStr.contains "/" p = false ->
  PyStr.startswith "!" p = false ->
  no_newline pre = true ->
  rule_verdict ("./" +:+ pre +:+ p) p = Some true.
Proof.
  intros Hlit Hslash Hbang Hpre.
  assert (Hregex : regex_of_pattern p = ".*" +:+ p).
  { rewrite regex_of_pattern_unfold. cbv zeta.
    rewrite (glob_to_regex_literal _ Hlit).
    destruct (PyStr.endswith "/" p) eqn:Hend.
    - apply endswith_contains in Hend. congruence.
    - now rewrite Hslash. }
  destruct (parse_body_literal_text p Hlit) as (ts & Hts & Hm).
  unfold rule_verdict, rule_body. rewrite Hbang, Hregex.
  unfold Re.re_match.
  rewrite re_compile_anchored, append_assoc, parse_body_any_star, Hts.
  assert (Hmatch :
    Re.matches (Re.TAnyStar :: ts) ("./" +:+ pre +:+ p) = true)
    by (apply (matches_star_skip ts ("./" +:+ pre) p); [exact Hpre | exact Hm]).
  change (cons Re.TAnyStar <$> Some ts) with (Some (Re.TAnyStar :: ts)).
  change (Some (Re.TAnyStar :: ts) ≫=
            (fun ts0 => Some (Re.matches ts0 ("./" +:+ pre +:+ p))))
    with (Some (Re.matches (Re.TAnyStar :: ts) ("./" +:+ pre +:+ p))).
  now rewrite Hmatch.
Qed.

(** A rule made of literal characters, with no slash and no leading [!],
    excludes every path that ends with its text, wherever the text begins,
    unless an earlier rule of the list matches the path first: the rule
    [log] excludes [catalog] as well as [app/log]. *)
Theorem literal_rule_matches_any_suffix file_path pre p before after :
  p <> "" ->
  all_chars literal_char p = true ->
  PyStr.contains "/" p = false ->
  PyStr.startswith "!" p = false ->
  no_newline pre = true ->
  PyStr.startswith "/" (pre +:+ p) = false ->
  Forall (fun q => rule_verdict (check_path_of (pre +:+ p)) q = Some false)
         before ->
  is_ignored file_path (pre +:+ p) (before ++ p :: after) = Ok true.
Proof.
  intros Hne Hlit Hslash Hbang Hpre Habs Hbefore.
  assert (Hrel : PyStr.truthy (pre +:+ p) = true).
  { destruct pre; [destruct p; [congruence | reflexivity] | reflexivity]. }
  assert (Hpath : check_path_of (pre +:+ p) = "./" +:+ pre +:+ p).
  { unfold check_path_of. now rewrite Hrel, (path_join_dot _ Habs). }
  rewrite is_ignored_nonempty by (destruct before; discriminate).
  rewrite (is_ignored_loop_skip _ _ _ Hbefore), is_ignored_loop_cons, Hpath.
  rewrite (literal_rule_verdict pre p Hlit Hslash Hbang Hpre), Hbang.
  reflexivity.
Qed.

Lemma literal_rule_matches_any_suffix_witness :
  "log" <> "" /\
  all_chars literal_char "log" = true /\
  PyStr.contains "/" "log" = false /\
  PyStr.startswith "!" "log" = false /\
  no_newline "docs/cata" = true /\
  PyStr.startswith "/" ("docs/cata" +:+ "log") = false /\
  Forall (fun q =>
            rule_verdict (check_path_of ("docs/cata" +:+ "log")) q = Some false)
         ["*.tmp"; "!*.md"] /\
  is_ignored "proj/docs/catalog" ("docs/cata" +:+ "log")
    (["*.tmp"; "!*.md"] ++ "log" :: ["!catalog"])
  = Ok true.
Proof.
  assert (Hne : "log" <> "") by discriminate.
  assert (Hbefore :
    Forall (fun q =>
              rule_verdict (check_path_of ("docs/cata" +:+ "log")) q
              = Some false) ["*.tmp"; "!*.md"]) by (repeat constructor).
  repeat (split; [first [exact Hne | exact Hbefore | reflexivity]|]).
  apply (literal_rule_matches_any_suffix "proj/docs/catalog" "docs/cata" "log"
           ["*.tmp"; "!*.md"] ["!catalog"]);
    first [exact Hne | exact Hbefore | reflexivity].
Defined.

(** *** Rules with a slash inside *)

Lemma contains_slash_middle x z :
  PyStr.contains "/" (x +:+ "/" +:+ z) = true.
Proof.
  induction x as [|a x IH].
  - rewrite append_nil, append_cons, append_nil, contains_cons, prefix_cons,
      prefix_nil.
    destruct (ascii_dec "/" "/"); [reflexivity | congruence].
  - rewrite append_cons, contains_cons, IH. apply orb_true_r.
Qed.

Lemma append_nonempty_r (s t : string) : t <> "" -> s +:+ t <> "".
Proof. destruct s; [now rewrite append_nil | discriminate]. Qed.

Lemma drop_last_cons a s :
  s <> "" -> PyStr.drop_last (String a s) = String a (PyStr.drop_last s).
Proof. destruct s; [congruence | reflexivity]. Qed.

Lemma drop_last_app s t :
  t <> "" -> PyStr.drop_last (s +:+ t) = s +:+ PyStr.drop_last t.
Proof.
  intros Ht. induction s as [|a s IH]; [reflexivity|].
  rewrite !append_cons, drop_last_cons by now apply append_nonempty_r.
  now rewrite IH.
Qed.

Lemma glob_to_regex_nonempty s : s <> "" -> glob_to_regex s <> "".
Proof.
  intros Hs E. apply Hs. unfold glob_to_regex in E.
  do 3 (apply replace_empty_iff in E; [|discriminate]). exact E.
Qed.

(** The expression built from a rule with an inner slash begins with the
    rule's first character, or with the slash, taken literally. *)
Lemma regex_of_anchored_pattern x y :
  y <> "" ->
  starts_literal x = true ->
  exists c t,
    regex_of_pattern (x +:+ "/" +:+ y) = String c t /\ Re.is_meta c = false.
Proof.
  intros Hy Hx.
  assert (Hshape : exists z,
    (let r := glob_to_regex (x +:+ "/" +:+ y) in
     if PyStr.endswith "/" r then PyStr.drop_last r else r)
    = glob_to_regex x +:+ "/" +:+ z).
  { cbv zeta. rewrite !glob_to_regex_app. change (glob_to_regex "/") with "/".
    destruct (PyStr.endswith "/" _); [|eauto].
    exists (PyStr.drop_last (glob_to_regex y)).
    rewrite drop_last_app
      by (apply append_nonempty_r; now apply glob_to_regex_nonempty).
    rewrite append_cons, append_nil, drop_last_cons
      by now apply glob_to_regex_nonempty.
    reflexivity. }
  destruct Hshape as [z Hz]. rewrite regex_of_pattern_unfold.
  cbv zeta in Hz |- *. rewrite Hz, contains_slash_middle. cbv [negb].
  destruct x as [|c x].
  - exists "/"%char, z. split; reflexivity.
  - simpl in Hx. apply negb_true_iff in Hx.
    rewrite glob_to_regex_cons_literal by exact Hx.
    rewrite append_cons. eauto.
Qed.

(** *** Glob rules lie in the regex fragment *)

Lemma parse_body_any r :
  PyStr.startswith "*" r = false ->
  Re.parse_body (String "." r) = cons Re.TAny <$> Re.parse_body r.
Proof.
  intros Hr. destruct r as [|a r]; [reflexivity|].
  unfold PyStr.startswith in Hr. rewrite prefix_cons, prefix_nil in Hr.
  destruct a as [[] [] [] [] [] [] [] []];
    try reflexivity; vm_compute in Hr; discriminate Hr.
Qed.

Lemma glob_to_regex_cons c p :
  glob_to_regex (String c p) = glob_to_regex (String c "") +:+ glob_to_regex p.
Proof.
  change (String c p) with (String c "" +:+ p). apply glob_to_regex_app.
Qed.

Lemma glob_char_cases c :
  glob_char c = true ->
  Re.is_meta c = false \/ c = "."%char \/ c = "*"%char \/ c = "?"%char.
Proof.
  unfold glob_char, literal_char. intros Hc.
  repeat (apply orb_true_iff in Hc as [Hc|Hc]).
  - left. now apply negb_true_iff.
  - apply Ascii.eqb_eq in Hc. auto.
  - apply Ascii.eqb_eq in Hc. auto.
  - apply Ascii.eqb_eq in Hc. auto.
Qed.

Lemma startswith_star_literal c r :
  Re.is_meta c = false -> PyStr.startswith "*" (String c r) = false.
Proof.
  intros Hc. unfold PyStr.startswith. rewrite prefix_cons.
  destruct (ascii_dec "*" c) as [<-|]; [discriminate Hc | reflexivity].
Qed.

(** The translation of a glob text never begins with a star. *)
Lemma glob_to_regex_head p rest :
  all_chars glob_char p = true ->
  PyStr.startswith "*" rest = false ->
  PyStr.startswith "*" (glob_to_regex p +:+ rest) = false.
Proof.
  destruct p as [|c p]; [intros _ Hrest; exact Hrest|].
  simpl. intros Hp _. apply andb_true_iff in Hp as [Hc _].
  rewrite glob_to_regex_cons.
  destruct (glob_char_cases c Hc) as [Hlit | [-> | [-> | ->]]];
    [|reflexivity..].
  rewrite (glob_to_regex_cons_literal c "" Hlit), !append_cons.
  now apply startswith_star_literal.
Qed.

Lemma parse_body_glob p :
  all_chars glob_char p = true ->
  forall rest,
    PyStr.startswith "*" rest = false ->
    is_Some (Re.parse_body rest) ->
    is_Some (Re.parse_body (glob_to_regex p +:+ rest)).
Proof.
  induction p as [|c p IH]; intros Hp rest Hrest Hsome; [exact Hsome|].
  simpl in Hp. apply andb_true_iff in Hp as [Hc Hp].
  pose proof (IH Hp rest Hrest Hsome) as [ts Hts].
  pose proof (glob_to_regex_head p rest Hp Hrest) as Hhead.
  rewrite glob_to_regex_cons, append_assoc.
  destruct (glob_char_cases c Hc) as [Hlit | [-> | [-> | ->]]].
  - rewrite (glob_to_regex_cons_literal c "" Hlit), append_cons, append_nil.
    rewrite parse_body_literal, Hts by exact Hlit. now eexists.
  - change (glob_to_regex ".") with "\.".
    change (Re.parse_body ("\." +:+ glob_to_regex p +:+ rest))
      with (cons (Re.TLit ".") <$> Re.parse_body (glob_to_regex p +:+ rest)).
    rewrite Hts. now eexists.
  - change (glob_to_regex "*") with ".*".
    rewrite parse_body_any_star, Hts. now eexists.
  - change (glob_to_regex "?") with ".".
    rewrite append_cons, append_nil, parse_body_any, Hts by exact Hhead.
    now eexists.
Qed.

Lemma endswith_snoc_inv c s :
  PyStr.endswith c s = true -> s = PyStr.drop_last s +:+ String c "".
Proof.
  induction s as [|a s IH]; [discriminate|]. intros H.
  destruct s as [|b s].
  - simpl in H. apply Ascii.eqb_eq in H as ->. reflexivity.
  - rewrite endswith_cons in H by discriminate.
    rewrite drop_last_cons, append_cons by discriminate.
    now rewrite <- IH.
Qed.

Lemma all_chars_drop_last test s :
  all_chars test s = true -> all_chars test (PyStr.drop_last s) = true.
Proof.
  induction s as [|a s IH]; [reflexivity|]. intros H.
  simpl in H. apply andb_true_iff in H as [Ha Hs].
  destruct s as [|b s]; [reflexivity|].
  rewrite drop_last_cons by discriminate.
  change (test a && all_chars test (PyStr.drop_last (String b s)) = true).
  now rewrite Ha, IH.
Qed.

(** The expression built from a glob rule compiles. *)
Lemma glob_rule_compiles body :
  all_chars glob_char body = true ->
  is_Some (Re.re_compile ("^" +:+ regex_of_pattern body +:+ "$")).
Proof.
  intros Hbody. rewrite re_compile_anchored, regex_of_pattern_unfold.
  cbv zeta. rewrite glob_to_regex_endswith_slash.
  assert (Hend : PyStr.startswith "*" "$" = false) by reflexivity.
  assert (Hdollar : is_Some (Re.parse_body "$")) by (now eexists).
  assert (Hstripped : exists q,
    all_chars glob_char q = true /\
    (if PyStr.endswith "/" body then PyStr.drop_last (glob_to_regex body)
     else glob_to_regex body) = glob_to_regex q).
  { destruct (PyStr.endswith "/" body) eqn:E; [|eauto].
    exists (PyStr.drop_last body).
    split; [now apply all_chars_drop_last|].
    rewrite (endswith_snoc_inv _ _ E) at 1.
    rewrite glob_to_regex_app. change (glob_to_regex "/") with "/".
    apply drop_last_snoc. }
  destruct Hstripped as (q & Hq & ->).
  destruct (negb (PyStr.contains "/" (glob_to_regex q))).
  - rewrite append_assoc, parse_body_any_star.
    destruct (parse_body_glob q Hq "$" Hend Hdollar) as [ts ->]. now eexists.
  - now apply parse_body_glob.
Qed.

(** A glob rule (literal characters and [.], [*], [?]) with a slash
    before its last character, whose text begins with a literal character
    or with the slash, matches no file: every path offered to the matcher
    begins with [./].  Deleting such a rule changes no answer of
    [is_ignored].  (A rule with further regex syntax, such as an
    alternation, is not covered.) *)
Theorem anchored_rule_never_matches file_path rel_path rule x y rest :
  rule_body rule = x +:+ "/" +:+ y ->
  y <> "" ->
  starts_literal x = true ->
  all_chars glob_char (rule_body rule) = true ->
  PyStr.truthy rel_path = true ->
  PyStr.startswith "/" rel_path = false ->
  is_ignored file_path rel_path (rule :: rest)
  = is_ignored file_path rel_path rest.
Proof.
  intros Hbody Hy Hx Hglob Hrel Habs.
  destruct (regex_of_anchored_pattern x y Hy Hx) as (c & t & Hregex & Hc).
  assert (Hdot : Ascii.eqb "." c = false).
  { rewrite Ascii.eqb_sym. now apply not_meta_neq. }
  assert (Hverdict : rule_verdict ("./" +:+ rel_path) rule = Some false).
  { unfold rule_verdict, Re.re_match.
    destruct (glob_rule_compiles _ Hglob) as [ts Hts]. rewrite Hts.
    rewrite Hbody, Hregex, re_compile_anchored, (append_cons c t "$"),
      parse_body_literal in Hts by exact Hc.
    destruct (Re.parse_body (t +:+ "$")) as [ts'|]; [|discriminate].
    injection Hts as <-.
    change (Some (Re.matches (Re.TLit c :: ts') ("./" +:+ rel_path))
            = Some false).
    now rewrite (append_cons "." "/" rel_path), matches_literal, Hdot. }
  rewrite is_ignored_nonempty by discriminate.
  unfold check_path_of. rewrite Hrel, (path_join_dot _ Habs).
  rewrite is_ignored_loop_cons, Hverdict.
  unfold is_ignored. rewrite Hrel, (path_join_dot _ Habs).
  now destruct rest.
Qed.

Lemma anchored_rule_never_matches_witness :
  rule_body "!docs/*.md" = "docs" +:+ "/" +:+ "*.md" /\
  "*.md" <> "" /\
  starts_literal "docs" = true /\
  all_chars glob_char (rule_body "!docs/*.md") = true /\
  PyStr.truthy "docs/a.md" = true /\
  PyStr.startswith "/" "docs/a.md" = false /\
  is_ignored "proj/docs/a.md" "docs/a.md" ("!docs/*.md" :: ["*.md"])
  = is_ignored "proj/docs/a.md" "docs/a.md" ["*.md"].
Proof.
  assert (Hne : "*.md" <> "") by discriminate.
  repeat (split; [first [exact Hne | reflexivity]|]).
  apply (anchored_rule_never_matches "proj/docs/a.md" "docs/a.md" "!docs/*.md"
           "docs" "*.md" ["*.md"]); first [exact Hne | reflexivity].
Defined.

(** ** More on [parse_gitignore] *)

Lemma rstrip_cons a s :
  PyStr.rstrip (String a s)
  = match PyStr.rstrip s with
    | EmptyString =>
        if PyStr.is_space a then EmptyString else String a EmptyString
    | r => String a r
    end.
Proof. reflexivity. Qed.

Lemma rstrip_cons_kept a s :
  PyStr.is_space a = false ->
  PyStr.rstrip (String a s) = String a (PyStr.rstrip s).
Proof.
  intros Ha. rewrite rstrip_cons, Ha. now destruct (PyStr.rstrip s).
Qed.

Lemma rstrip_idempotent s : PyStr.rstrip (PyStr.rstrip s) = PyStr.rstrip s.
Proof.
  induction s as [|a s IH]; [reflexivity|].
  rewrite rstrip_cons. destruct (PyStr.rstrip s) as [|b r] eqn:E.
  - destruct (PyStr.is_space a) eqn:Ha; [reflexivity|].
    now rewrite rstrip_cons_kept.
  - rewrite rstrip_cons, IH. reflexivity.
Qed.

Lemma lstrip_head s :
  match PyStr.lstrip s with
  | EmptyString => True
  | String a _ => PyStr.is_space a = false
  end.
Proof.
  induction s as [|a s IH]; [exact I|]. simpl.
  destruct (PyStr.is_space a) eqn:Ha; [exact IH | exact Ha].
Qed.

Lemma lstrip_kept a s :
  PyStr.is_space a = false -> PyStr.lstrip (String a s) = String a s.
Proof. intros Ha. simpl. now rewrite Ha. Qed.

Lemma strip_idempotent s : PyStr.strip (PyStr.strip s) = PyStr.strip s.
Proof.
  unfold PyStr.strip. pose proof (lstrip_head s) as Hhead.
  destruct (PyStr.lstrip s) as [|a t]; [reflexivity|].
  rewrite rstrip_cons_kept by exact Hhead.
  rewrite lstrip_kept by exact Hhead.
  rewrite rstrip_cons_kept by exact Hhead.
  now rewrite rstrip_idempotent.
Qed.

Lemma filter_idempotent {A} (f : A -> bool) l :
  List.filter f (List.filter f l) = List.filter f l.
Proof.
  induction l as [|x l IH]; [reflexivity|]. simpl.
  destruct (f x) eqn:E; [|exact IH]. simpl. now rewrite E, IH.
Qed.

Lemma parsed_pattern_stripped lines p :
  In p (parse_gitignore lines) -> PyStr.strip p = p.
Proof.
  unfold parse_gitignore. intros Hp. apply filter_In in Hp as [Hp _].
  apply in_map_iff in Hp as (line & <- & _). apply strip_idempotent.
Qed.

(** Every pattern handed to the matcher is the stripped text of a line of
    the file; it is not empty, it is not a comment (an indented [#] line is
    one too), and it has no white space left at either end. *)
Theorem parsed_patterns_are_clean lines p :
  In p (parse_gitignore lines) ->
  p <> "" /\
  PyStr.startswith "#" p = false /\
  PyStr.strip p = p /\
  exists line, In line lines /\ p = PyStr.strip line.
Proof.
  unfold parse_gitignore. intros Hp.
  apply filter_In in Hp as [Hp Hkeep].
  apply andb_true_iff in Hkeep as [Hne Hcomment].
  apply negb_true_iff in Hcomment.
  apply in_map_iff in Hp as (line & <- & Hline).
  split; [intros E; rewrite E in Hne; discriminate|].
  split; [exact Hcomment|]. split; [apply strip_idempotent|]. eauto.
Qed.

Lemma parsed_patterns_are_clean_witness :
  In "*.log" (parse_gitignore ["   # logs"; "  *.log  "; ""]) /\
  "*.log" <> "" /\
  PyStr.startswith "#" "*.log" = false /\
  PyStr.strip "*.log" = "*.log" /\
  exists line,
    In line ["   # logs"; "  *.log  "; ""] /\ "*.log" = PyStr.strip line.
Proof.
  assert (Hin : In "*.log" (parse_gitignore ["   # logs"; "  *.log  "; ""]))
    by (left; reflexivity).
  split; [exact Hin|].
  exact (parsed_patterns_are_clean ["   # logs"; "  *.log  "; ""] "*.log" Hin).
Defined.

(** Parsing a file made of the patterns already parsed gives the same
    patterns: nothing is stripped or dropped twice. *)
Theorem parse_gitignore_idempotent lines :
  parse_gitignore (parse_gitignore lines) = parse_gitignore lines.
Proof.
  assert (Hmap : map PyStr.strip (parse_gitignore lines) = parse_gitignore lines).
  { rewrite <- (map_id (parse_gitignore lines)) at 2.
    apply map_ext_in. intros p Hp.
    now apply parsed_pattern_stripped in Hp. }
  unfold parse_gitignore at 1. rewrite Hmap. unfold parse_gitignore.
  apply filter_idempotent.
Qed.

(** ** More on the manifest *)

Section Manifest.

Context `{Runtime}.
Variable fuel : nat.
Variable tree : Dir.
Variable target_dir : string.
Variable ignore_patterns : option (list string).
Variable use_gitignore : bool.
Variable skip_hash : bool.

Lemma record_of_shape root rel_path entry r :
  record_of skip_hash root rel_path entry r ->
  last_reviewed (metadata r) = "" /\
  file_type r = file_type_of (fst entry) /\
  match f_stat (snd entry) with
  | Some file_stats =>
      created_date (metadata r) = st_ctime_iso file_stats /\
      last_modified (metadata r) = st_mtime_iso file_stats /\
      normal_record r
  | None => degraded_record r
  end.
Proof.
  intros [file_id ->]. unfold file_entry_of, normal_record, degraded_record.
  destruct (f_stat (snd entry)); [|simpl; repeat split; reflexivity].
  destruct (calculate_file_hash _ _ _); simpl; repeat split; reflexivity.
Qed.

Lemma kept_file_survives ign gi item entry :
  In entry (kept_files ign gi item) ->
  any_pattern_in ign (w_root item) = false /\
  survives ign gi (w_root item) (w_rel item) entry = true.
Proof.
  unfold kept_files.
  destruct (any_pattern_in ign (w_root item)); [intros []|].
  intros Hin. apply filter_In in Hin as [_ Hs]. auto.
Qed.

(** No recorded file has a name that holds an ignore substring, and none
    is excluded by the ignore file's rules: both filters hold of every
    record of a completed scan. *)
Theorem recorded_files_pass_filters res :
  scan_directory fuel tree target_dir ignore_patterns use_gitignore skip_hash
    = Ok res ->
  forall r,
    In r (all_files res) ->
    any_pattern_in (effective_ignore ignore_patterns) (file_name r) = false /\
    forall file_path,
      is_ignored file_path (rel_file_path r)
        (load_gitignore use_gitignore tree) = Ok false.
Proof.
  intros Hscan r Hr. apply scan_directory_spec in Hscan.
  destruct (folder_records_sound _ _ _ _ _ _ Hscan Hr)
    as (item & entry & _ & Hentry & Hof).
  apply record_of_fields in Hof as (Hfolder & Hname & _).
  apply kept_file_survives in Hentry as [_ Hs].
  unfold survives in Hs. apply andb_true_iff in Hs as [Hsub Hgit].
  apply negb_true_iff in Hsub. rewrite Hname. split; [exact Hsub|].
  intros file_path. unfold rel_file_path. rewrite Hfolder, Hname.
  destruct (is_ignored (path_join (w_root item) (fst entry)) _ _)
    as [[|]|] eqn:E; try discriminate.
  exact E.
Qed.

(** Inside a folder record every file record names that folder: the
    [folder] field repeats the [path] of the record that holds it. *)
Theorem record_folder_is_folder_path res :
  scan_directory fuel tree target_dir ignore_patterns use_gitignore skip_hash
    = Ok res ->
  forall f r, In f (folders res) -> In r (files f) -> folder r = path f.
Proof.
  intros Hscan f r Hf Hr. apply scan_directory_spec in Hscan.
  destruct (Forall2_In_r _ _ _ _ Hscan Hf) as (item & _ & Hp & Hrec).
  destruct (Forall2_In_r _ _ _ _ Hrec Hr) as (entry & _ & Hof).
  apply record_of_fields in Hof as (Hfolder & _). congruence.
Qed.

(** Every record of a completed scan has an empty [last_reviewed], the
    file type computed from its name, and one of two shapes: the normal one
    with both placeholders empty, or the degraded one with empty dates,
    size zero, hash [error] and the two fixed texts. *)
Theorem record_shape res :
  scan_directory fuel tree target_dir ignore_patterns use_gitignore skip_hash
    = Ok res ->
  forall r,
    In r (all_files res) ->
    last_reviewed (metadata r) = "" /\
    file_type r = file_type_of (file_name r) /\
    (normal_record r \/ degraded_record r).
Proof.
  intros Hscan r Hr. apply scan_directory_spec in Hscan.
  destruct (folder_records_sound _ _ _ _ _ _ Hscan Hr)
    as (item & entry & _ & _ & Hof).
  pose proof (record_of_fields _ _ _ _ _ Hof) as (_ & Hname & _).
  apply record_of_shape in Hof as (Hrev & Htype & Hshape).
  split; [exact Hrev|]. split; [now rewrite Hname|].
  destruct (f_stat (snd entry)); [left | right]; tauto.
Qed.

(** When hashing is not skipped, the record of every kept file whose
    metadata and content can be read carries the file's real size, its two
    dates and the digest of its content. *)
Theorem readable_file_record res item entry file_stats data :
  scan_directory fuel tree target_dir ignore_patterns use_gitignore false
    = Ok res ->
  In item (walk (effective_ignore ignore_patterns) target_dir "" tree) ->
  In entry (kept_files (effective_ignore ignore_patterns)
              (load_gitignore use_gitignore tree) item) ->
  f_stat (snd entry) = Some file_stats ->
  f_content (snd entry) = Some data ->
  exists r,
    In r (all_files res) /\
    folder r = w_rel item /\
    file_name r = fst entry /\
    hash (metadata r) = sha256_hexdigest data /\
    size_bytes (metadata r) = st_size file_stats /\
    created_date (metadata r) = st_ctime_iso file_stats /\
    last_modified (metadata r) = st_mtime_iso file_stats.
Proof.
  intros Hscan Hitem Hentry Hstat Hdata. apply scan_directory_spec in Hscan.
  destruct (folder_records_complete _ _ _ _ _ _ _ Hscan Hitem Hentry)
    as (r & Hr & Hof).
  exists r. split; [exact Hr|].
  destruct Hof as [file_id ->]. unfold file_entry_of.
  rewrite Hstat. unfold calculate_file_hash. rewrite Hdata. simpl.
  repeat split; reflexivity.
Qed.

End Manifest.

(** ** Files opened for hashing *)

Section Opened.

Context `{Runtime}.
Variable fuel : nat.
Variable ignore_patterns : list string.
Variable gitignore_patterns : list string.

Lemma scan_file_opened root rel_path entry acc st acc' st' :
  scan_file fuel ignore_patterns gitignore_patterns false
    root rel_path entry (acc, st) = Ok (acc', st') ->
  opened st'
  = opened st ++
    (if survives ignore_patterns gitignore_patterns root rel_path entry
        && has_metadata entry
     then [path_join root (fst entry)] else []).
Proof.
  destruct entry as [filename node]. unfold scan_file, survives, has_metadata.
  simpl.
  destruct (any_pattern_in ignore_patterns filename); simpl.
  { intros [= <- <-]. now rewrite app_nil_r. }
  destruct (is_ignored _ _ _) as [[|]|e]; simpl; try discriminate.
  { intros [= <- <-]. now rewrite app_nil_r. }
  destruct (redraw_id _ _ _ _) as [[file_id k]|e]; simpl; try discriminate.
  unfold file_entry_of, calculate_file_hash.
  destruct (f_stat node); [destruct (f_content node)|];
    intros [= <- <-]; reflexivity.
Qed.

Lemma scan_files_opened root rel_path entries :
  forall acc st acc' st',
    scan_files fuel ignore_patterns gitignore_patterns false
      root rel_path entries (acc, st) = Ok (acc', st') ->
    opened st'
    = opened st ++
      map (fun entry => path_join root (fst entry))
          (List.filter has_metadata
             (List.filter
                (survives ignore_patterns gitignore_patterns root rel_path)
                entries)).
Proof.
  induction entries as [|entry rest IH]; intros acc st acc' st'; simpl.
  - intros [= <- <-]. now rewrite app_nil_r.
  - destruct (scan_file _ _ _ _ _ _ _ _) as [[acc1 st1]|e] eqn:Hstep;
      simpl; [|discriminate].
    intros Hrest. apply scan_file_opened in Hstep. apply IH in Hrest.
    rewrite Hrest, Hstep, <- app_assoc. f_equal.
    destruct (survives _ _ _ _ entry); simpl; [|reflexivity].
    destruct (has_metadata entry); reflexivity.
Qed.

Lemma scan_walk_opened items :
  forall st st',
    scan_walk fuel ignore_patterns gitignore_patterns false items st
      = Ok st' ->
    opened st'
    = opened st ++
      flat_map (hashed_paths ignore_patterns gitignore_patterns) items.
Proof.
  induction items as [|item rest IH]; intros st st'; simpl.
  - intros [= <-]. now rewrite app_nil_r.
  - destruct (scan_folder _ _ _ _ _ _) as [st1|e] eqn:Hstep; simpl;
      [|discriminate].
    intros Hrest. apply IH in Hrest. rewrite Hrest, app_assoc. f_equal.
    unfold scan_folder in Hstep. unfold hashed_paths, kept_files.
    destruct (any_pattern_in ignore_patterns (w_root item)).
    + injection Hstep as <-. now rewrite app_nil_r.
    + destruct (scan_files _ _ _ _ _ _ _ _) as [[entry_files st2]|e] eqn:Hfiles;
        simpl in Hstep; [|discriminate].
      injection Hstep as <-. simpl. now apply scan_files_opened in Hfiles.
Qed.

End Opened.

(** When hashing is not skipped, the files opened for hashing are exactly
    the kept files whose metadata could be read, each once, in the order of
    the manifest; a file whose metadata cannot be read is never opened. *)
Theorem opened_files_are_kept_files_with_metadata `{Runtime}
    fuel tree target_dir ignore_patterns use_gitignore st :
  scan_state fuel tree target_dir ignore_patterns use_gitignore false
    = Ok st ->
  opened st
  = flat_map (hashed_paths (effective_ignore ignore_patterns)
                (load_gitignore use_gitignore tree))
             (walk (effective_ignore ignore_patterns) target_dir "" tree).
Proof.
  unfold scan_state. intros Hscan. now apply scan_walk_opened in Hscan.
Qed.

Lemma opened_files_are_kept_files_with_metadata_witness :
  exists st,
    scan_state (H:=Sample.runtime) 0 Sample.mixed_tree "proj" None true false
      = Ok st /\
    opened st = ["proj/README"; "proj/secret.key"; "proj/src/main.py";
                 "proj/src/pkg/mod.py"].
Proof.
  destruct (scan_state (H:=Sample.runtime) 0 Sample.mixed_tree "proj" None
              true false) as [st|e] eqn:Hst.
  - exists st. split; [reflexivity|].
    rewrite (opened_files_are_kept_files_with_metadata (H:=Sample.runtime) 0
               Sample.mixed_tree "proj" None true st Hst).
    vm_compute. reflexivity.
  - exfalso. vm_compute in Hst. discriminate.
Defined.

(** ** The summary block *)

Lemma count_files_all_files fs :
  count_files fs = Z.of_nat (length (flat_map files fs)).
Proof.
  unfold count_files. induction fs as [|f fs IH]; simpl; [reflexivity|].
  rewrite IH, length_app. lia.
Qed.

Lemma count_files_at_least fs :
  Forall (fun f => files f <> []) fs ->
  Z.of_nat (length fs) <= count_files fs.
Proof.
  unfold count_files. induction 1 as [|f fs Hf _ IH]; simpl; [lia|].
  destruct (files f); [congruence | simpl length; lia].
Qed.

Lemma add_folder_target folder_entry r :
  target_directory (scan_info (add_folder folder_entry r))
  = target_directory (scan_info r).
Proof. unfold add_folder. now destruct (files folder_entry). Qed.

Lemma scan_walk_target `{Runtime} fuel ign gi skip_hash items :
  forall st st',
    scan_walk fuel ign gi skip_hash items st = Ok st' ->
    target_directory (scan_info (result st'))
    = target_directory (scan_info (result st)).
Proof.
  induction items as [|item rest IH]; intros st st'; simpl.
  - now intros [= <-].
  - destruct (scan_folder _ _ _ _ _ _) as [st1|e] eqn:Hstep; simpl;
      [|discriminate].
    intros Hrest. apply IH in Hrest. rewrite Hrest.
    apply scan_folder_spec in Hstep as (_ & new & _ & -> & _).
    apply add_folder_target.
Qed.

(** The summary of a completed scan names the absolute path of the scan
    root, counts exactly the file records of the manifest, and never
    counts more folders than files. *)
Theorem scan_info_summary `{Runtime}
    fuel tree target_dir ignore_patterns use_gitignore skip_hash res :
  scan_directory fuel tree target_dir ignore_patterns use_gitignore skip_hash
    = Ok res ->
  target_directory (scan_info res) = abspath target_dir /\
  total_files (scan_info res) = Z.of_nat (length (all_files res)) /\
  0 <= total_folders (scan_info res) <= total_files (scan_info res).
Proof.
  intros Hscan. apply scan_directory_state in Hscan as (st & Hst & ->).
  pose proof Hst as Hinv.
  apply scan_state_spec in Hinv as ((Hfolders & Hfiles & Hne & _) & _).
  unfold scan_state in Hst. apply scan_walk_target in Hst.
  split; [exact Hst|]. split.
  - rewrite Hfiles. apply count_files_all_files.
  - rewrite Hfolders, Hfiles. split; [lia|].
    apply count_files_at_least. rewrite Forall_forall. intros f Hf.
    rewrite Forall_forall in Hne. apply Hne. exact Hf.
Qed.

Lemma scan_info_summary_witness :
  exists res,
    scan_directory (H:=Sample.runtime) 0 Sample.mixed_tree "proj"
      None true false = Ok res /\
    target_directory (scan_info res) = "/work/proj" /\
    total_files (scan_info res) = Z.of_nat (length (all_files res)) /\
    0 <= total_folders (scan_info res) <= total_files (scan_info res).
Proof.
  eexists. split; [vm_compute; reflexivity|].
  apply (scan_info_summary (H:=Sample.runtime) 0 Sample.mixed_tree "proj"
           None true false).
  vm_compute. reflexivity.
Defined.

(** ** More on the walk *)

Lemma walk_unfold ign root rel fs ds :
  walk ign root rel (MkDir fs ds)
  = {| w_root := root; w_rel := rel; w_files := fs |} ::
    flat_map
      (fun e =>
         if any_pattern_in ign (fst e) then []
         else walk ign (path_join root (fst e))
                   (if PyStr.truthy rel then rel +:+ "/" +:+ fst e else fst e)
                   (snd e))
      ds.
Proof. reflexivity. Qed.

Lemma walk_visits_reached ign tree names d :
  reaches ign tree names d ->
  forall root rel,
    In {| w_root := root_below root names;
          w_rel := rel_below rel names;
          w_files := d_files d |}
       (walk ign root rel tree).
Proof.
  induction 1 as [d | fs ds name sub names d Hin Hkeep _ IH]; intros root rel.
  - destruct d as [fs ds]. left. reflexivity.
  - rewrite walk_unfold. right. apply in_flat_map.
    exists (name, sub). split; [exact Hin|]. simpl. rewrite Hkeep.
    apply IH.
Qed.

Lemma walk_reaches_visited ign tree :
  forall root rel item,
    In item (walk ign root rel tree) ->
    exists names d,
      reaches ign tree names d /\
      item = {| w_root := root_below root names;
                w_rel := rel_below rel names;
                w_files := d_files d |}.
Proof.
  induction tree as [fs ds IH] using Dir_induction.
  intros root rel item. rewrite walk_unfold. intros [<-|Hin].
  - exists [], (MkDir fs ds). split; [constructor | reflexivity].
  - apply in_flat_map in Hin as ([name sub] & He & Hin). simpl in Hin.
    destruct (any_pattern_in ign name) eqn:Hkeep; [destruct Hin|].
    rewrite Forall_forall in IH.
    destruct (IH (name, sub) ltac:(now apply list_elem_of_In) _ _ _ Hin)
      as (names & d & Hreach & ->).
    exists (name :: names), d. split; [|reflexivity].
    now apply reaches_below with (sub := sub).
Qed.

(** The directories a scan visits are exactly those that lie below the
    scan root along directory names none of which holds an ignore
    substring; each is visited under the path and the relative path built
    from those names. *)
Theorem visited_iff_reached ign root tree item :
  In item (walk ign root "" tree) <->
  exists names d,
    reaches ign tree names d /\
    item = {| w_root := root_below root names;
              w_rel := rel_below "" names;
              w_files := d_files d |}.
Proof.
  split.
  - apply walk_reaches_visited.
  - intros (names & d & Hreach & ->). now apply walk_visits_reached.
Qed.

(** *** Root paths and relative paths *)

Lemma startswith_app_nonempty p s t :
  s <> "" -> PyStr.startswith (String p "") (s +:+ t)
             = PyStr.startswith (String p "") s.
Proof.
  destruct s as [|a s]; [congruence|]. intros _.
  unfold PyStr.startswith. rewrite append_cons, !prefix_cons.
  destruct (ascii_dec p a); [now rewrite !prefix_nil | reflexivity].
Qed.

Lemma truthy_nonempty s : PyStr.truthy s = true <-> s <> "".
Proof. destruct s; simpl; split; congruence. Qed.

Lemma name_ok_facts n :
  name_ok n = true ->
  n <> "" /\ PyStr.startswith "/" n = false /\ PyStr.endswith "/" n = false.
Proof.
  intros Hn. pose proof (name_ok_not_absolute n Hn) as Habs.
  unfold name_ok in Hn. apply andb_true_iff in Hn as [Hne Hslash].
  apply truthy_nonempty in Hne. apply negb_true_iff in Hslash.
  repeat split; auto.
  destruct (PyStr.endswith "/" n) eqn:E; [|reflexivity].
  apply endswith_contains in E. congruence.
Qed.

(** Joining a directory name to the path of a directory below the root is
    the same as joining the longer relative path to the root. *)
Lemma path_join_below target rel n :
  rel <> "" ->
  PyStr.startswith "/" rel = false ->
  PyStr.endswith "/" rel = false ->
  name_ok n = true ->
  path_join (path_join target rel) n = path_join target (rel +:+ "/" +:+ n).
Proof.
  intros Hne Habs Hend Hn.
  destruct (name_ok_facts n Hn) as (Hn_ne & Hn_abs & _).
  unfold path_join.
  rewrite Hn_abs, Habs, (startswith_app_nonempty "/" rel _ Hne), Habs.
  destruct (negb (PyStr.truthy target) || PyStr.endswith "/" target).
  - assert (Ht : PyStr.truthy (target +:+ rel) = true)
      by (apply truthy_nonempty; now apply append_nonempty_r).
    rewrite Ht, (endswith_app "/" target rel Hne), Hend. simpl.
    now rewrite append_assoc.
  - assert (Hslash : "/" +:+ rel <> "") by discriminate.
    assert (Ht : PyStr.truthy (target +:+ "/" +:+ rel) = true)
      by (apply truthy_nonempty; now apply append_nonempty_r).
    rewrite Ht, (endswith_app "/" target _ Hslash),
      (endswith_app "/" "/" rel Hne), Hend. simpl.
    now rewrite !append_assoc.
Qed.

Lemma walk_root_below_target ign target tree :
  forall root rel,
    names_ok tree = true ->
    (rel = "" /\ root = target \/
     rel <> "" /\ PyStr.startswith "/" rel = false /\
     PyStr.endswith "/" rel = false /\ root = path_join target rel) ->
    forall item,
      In item (walk ign root rel tree) ->
      w_root item
      = if PyStr.truthy (w_rel item) then path_join target (w_rel item)
        else target.
Proof.
  induction tree as [fs ds IH] using Dir_induction.
  intros root rel Hok Hrel item. rewrite walk_unfold. intros [<-|Hin].
  - simpl. destruct Hrel as [[-> ->]|(Hne & _ & _ & ->)]; [reflexivity|].
    apply truthy_nonempty in Hne. now rewrite Hne.
  - apply in_flat_map in Hin as ([name sub] & He & Hin). simpl in Hin.
    destruct (any_pattern_in ign name); [destruct Hin|].
    simpl in Hok. apply andb_true_iff in Hok as [_ Hok].
    rewrite forallb_forall in Hok. specialize (Hok _ He). simpl in Hok.
    apply andb_true_iff in Hok as [Hname Hsub].
    destruct (name_ok_facts name Hname) as (Hn_ne & Hn_abs & Hn_end).
    rewrite Forall_forall in IH.
    apply (IH (name, sub) ltac:(now apply list_elem_of_In) _ _ Hsub) in Hin;
      [exact Hin|].
    right. destruct Hrel as [[-> ->]|(Hne & Habs & Hend & ->)].
    + simpl. auto.
    + apply truthy_nonempty in Hne as Ht. rewrite Ht.
      assert (Htail : "/" +:+ name <> "") by discriminate.
      split; [now apply append_nonempty_r|].
      split; [now rewrite startswith_app_nonempty|].
      split; [now rewrite (endswith_app "/" rel _ Htail),
                            (endswith_app "/" "/" name Hn_ne)|].
      now apply path_join_below.
Qed.

(** Every visited directory is walked under the path obtained by joining
    its relative path to the scan root, so [file_path] at line 178 is the
    scan root joined with the [folder] and [file_name] of the record. *)
Theorem visited_root_is_target_joined_with_rel ign target tree item :
  names_ok tree = true ->
  In item (walk ign target "" tree) ->
  w_root item
  = if PyStr.truthy (w_rel item) then path_join target (w_rel item)
    else target.
Proof.
  intros Hok. apply walk_root_below_target; auto.
Qed.

Lemma visited_root_is_target_joined_with_rel_witness :
  names_ok Sample.mixed_tree = true /\
  In {| w_root := "proj/src/pkg"; w_rel := "src/pkg";
        w_files := [("mod.py", Sample.readable "mod")] |}
     (walk default_ignore_patterns "proj" "" Sample.mixed_tree) /\
  "proj/src/pkg" = path_join "proj" "src/pkg".
Proof.
  assert (Hin :
    In {| w_root := "proj/src/pkg"; w_rel := "src/pkg";
          w_files := [("mod.py", Sample.readable "mod")] |}
       (walk default_ignore_patterns "proj" "" Sample.mixed_tree))
    by (vm_compute; tauto).
  split; [reflexivity|]. split; [exact Hin|].
  exact (visited_root_is_target_joined_with_rel default_ignore_patterns "proj"
           Sample.mixed_tree _ eq_refl Hin).
Defined.

Lemma visited_iff_reached_witness :
  In {| w_root := root_below "proj" ["src"; "pkg"];
        w_rel := rel_below "" ["src"; "pkg"];
        w_files := d_files (MkDir [("mod.py", Sample.readable "mod")] []) |}
     (walk default_ignore_patterns "proj" "" Sample.mixed_tree).
Proof.
  apply (proj2 (visited_iff_reached default_ignore_patterns "proj"
                  Sample.mixed_tree _)).
  exists ["src"; "pkg"], (MkDir [("mod.py", Sample.readable "mod")] []).
  split; [|reflexivity].
  eapply reaches_below; [right; right; left; reflexivity | reflexivity |].
  eapply reaches_below; [left; reflexivity | reflexivity |].
  apply reaches_here.
Defined.

(** ** Skipping the hash *)

Section SkipHash.

Context `{Runtime}.
Variable source : nat -> string.
Variables skip1 skip2 : bool.
Variable ign : list string.
Variable gi : list string.

(** The record built for an entry is the same in both runs, identifier and
    hash apart. *)
Lemma record_of_without_id_and_hash root rel_path entry r1 r2 :
  record_of skip1 root rel_path entry r1 ->
  record_of (H := with_uuid4 source H) skip2 root rel_path entry r2 ->
  without_id_and_hash r1 = without_id_and_hash r2.
Proof.
  intros [id1 ->] [id2 ->]. unfold file_entry_of.
  destruct (f_stat (snd entry)); [|reflexivity].
  destruct (calculate_file_hash _ _ skip1).
  destruct (calculate_file_hash (H := with_uuid4 source H) _ _ skip2).
  reflexivity.
Qed.

Lemma records_without_ids_and_hashes root rel_path entries :
  forall files1 files2,
    Forall2 (record_of skip1 root rel_path) entries files1 ->
    Forall2 (record_of (H := with_uuid4 source H) skip2 root rel_path)
            entries files2 ->
    map without_id_and_hash files1 = map without_id_and_hash files2.
Proof.
  induction entries as [|entry entries IH]; intros files1 files2 H1 H2;
    inversion H1; inversion H2; subst; simpl; [reflexivity|].
  f_equal; [eapply record_of_without_id_and_hash; eauto | now apply IH].
Qed.

Lemma folders_without_ids_and_hashes_eq items :
  forall fs1 fs2,
    Forall2 (folder_of skip1 ign gi) items fs1 ->
    Forall2 (folder_of (H := with_uuid4 source H) skip2 ign gi) items fs2 ->
    map (fun f => {| path := path f;
                     files := map without_id_and_hash (files f) |}) fs1
    = map (fun f => {| path := path f;
                       files := map without_id_and_hash (files f) |}) fs2.
Proof.
  induction items as [|item items IH]; intros fs1 fs2 H1 H2;
    inversion H1 as [|? f1 ? ? [Hp1 Hr1]]; inversion H2 as [|? f2 ? ? [Hp2 Hr2]];
    subst; simpl; [reflexivity|].
  f_equal; [|now apply IH].
  rewrite Hp1, Hp2. f_equal.
  eapply records_without_ids_and_hashes; eauto.
Qed.

End SkipHash.

Lemma count_files_without_ids_and_hashes fs :
  count_files
    (map (fun f => {| path := path f;
                      files := map without_id_and_hash (files f) |}) fs)
  = count_files fs.
Proof.
  unfold count_files. induction fs as [|f fs IH]; simpl; [reflexivity|].
  now rewrite IH, length_map.
Qed.

(** Two completed scans of the same tree, one with and one without
    [skip_hash], each with its own identifiers (and its own bound on the
    identifier loop), return the same summary and the same folders with
    the same files in the same order, the [id] and [hash] fields apart.
    That one of them completes when the other does is not stated. *)
Theorem skip_hash_changes_only_hashes `{Runtime} (source : nat -> string)
    fuel1 fuel2 tree target_dir ignore_patterns use_gitignore skip1 skip2
    res1 res2 :
  scan_directory fuel1 tree target_dir ignore_patterns use_gitignore skip1
    = Ok res1 ->
  scan_directory (H := with_uuid4 source H) fuel2 tree target_dir
    ignore_patterns use_gitignore skip2 = Ok res2 ->
  scan_info res1 = scan_info res2 /\
  folders_without_ids_and_hashes res1 = folders_without_ids_and_hashes res2.
Proof.
  intros Hscan1 Hscan2.
  assert (Hfolders :
    folders_without_ids_and_hashes res1 = folders_without_ids_and_hashes res2).
  { unfold folders_without_ids_and_hashes.
    eapply folders_without_ids_and_hashes_eq;
      eapply scan_directory_spec; eauto. }
  split; [|exact Hfolders].
  apply scan_directory_state in Hscan1 as (st1 & Hst1 & ->).
  apply scan_directory_state in Hscan2 as (st2 & Hst2 & ->).
  pose proof Hst1 as Hinv1. pose proof Hst2 as Hinv2.
  apply scan_state_spec in Hinv1 as ((Hn1 & Hc1 & _) & _).
  apply scan_state_spec in Hinv2 as ((Hn2 & Hc2 & _) & _).
  unfold scan_state in Hst1, Hst2.
  apply scan_walk_target in Hst1. apply scan_walk_target in Hst2.
  simpl in Hst1, Hst2.
  unfold folders_without_ids_and_hashes in Hfolders.
  destruct (scan_info (result st1)) as [t1 n1 c1] eqn:E1.
  destruct (scan_info (result st2)) as [t2 n2 c2] eqn:E2.
  simpl in *. f_equal.
  - congruence.
  - rewrite Hn1, Hn2.
    rewrite <- (length_map (fun f => {| path := path f;
                  files := map without_id_and_hash (files f) |})
                  (folders (result st1))).
    now rewrite Hfolders, length_map.
  - rewrite Hc1, Hc2, <- (count_files_without_ids_and_hashes
                             (folders (result st1))).
    now rewrite Hfolders, count_files_without_ids_and_hashes.
Qed.

Lemma skip_hash_changes_only_hashes_witness :
  exists res1 res2,
    scan_directory (H:=Sample.runtime) 0 Sample.mixed_tree "proj"
      None true false = Ok res1 /\
    scan_directory
      (H:=with_uuid4 (@uuid4 Sample.colliding_runtime) Sample.runtime) 1
      Sample.mixed_tree "proj" None true true = Ok res2 /\
    scan_info res1 = scan_info res2 /\
    folders_without_ids_and_hashes res1 = folders_without_ids_and_hashes res2.
Proof.
  do 2 eexists.
  assert (Hscan1 :
    scan_directory (H:=Sample.runtime) 0 Sample.mixed_tree "proj"
      None true false = Ok _) by (vm_compute; reflexivity).
  assert (Hscan2 :
    scan_directory
      (H:=with_uuid4 (@uuid4 Sample.colliding_runtime) Sample.runtime) 1
      Sample.mixed_tree "proj" None true true = Ok _)
    by (vm_compute; reflexivity).
  split; [exact Hscan1|]. split; [exact Hscan2|].
  exact (skip_hash_changes_only_hashes (H:=Sample.runtime)
           (@uuid4 Sample.colliding_runtime) 0 1 Sample.mixed_tree "proj"
           None true false true _ _ Hscan1 Hscan2).
Defined.

(** ** Order and completeness of the manifest *)

Section Order.

Context `{Runtime}.
Variable skip_hash : bool.
Variable ign : list string.
Variable gi : list string.

Lemma records_names root rel_path entries records :
  Forall2 (record_of skip_hash root rel_path) entries records ->
  map (fun r => (folder r, file_name r)) records
  = map (fun entry => (rel_path, fst entry)) entries.
Proof.
  induction 1 as [|entry r entries records Hof _ IH]; simpl; [reflexivity|].
  apply record_of_fields in Hof as (-> & -> & _). now rewrite IH.
Qed.

Lemma folders_names items fs :
  Forall2 (folder_of skip_hash ign gi) items fs ->
  map (fun r => (folder r, file_name r)) (flat_map files fs)
  = flat_map (kept_names ign gi) items.
Proof.
  induction 1 as [|item f items fs [_ Hrec] _ IH]; simpl; [reflexivity|].
  rewrite map_app, IH. f_equal.
  exact (records_names (w_root item) (w_rel item) _ _ Hrec).
Qed.

Lemma flat_map_kept_names_filter items :
  flat_map (kept_names ign gi) (List.filter (has_kept_file ign gi) items)
  = flat_map (kept_names ign gi) items.
Proof.
  induction items as [|item items IH]; simpl; [reflexivity|].
  unfold has_kept_file at 1, kept_names at 2.
  destruct (kept_files ign gi item) eqn:E; simpl.
  - exact IH.
  - rewrite IH. unfold kept_names at 1. now rewrite E.
Qed.

End Order.

(** The file records of a completed scan list the kept files of the
    visited directories in walk order, each exactly once, under its folder
    and file name. *)
Theorem manifest_lists_kept_files_in_order `{Runtime}
    fuel tree target_dir ignore_patterns use_gitignore skip_hash res :
  scan_directory fuel tree target_dir ignore_patterns use_gitignore skip_hash
    = Ok res ->
  map (fun r => (folder r, file_name r)) (all_files res)
  = flat_map (kept_names (effective_ignore ignore_patterns)
                (load_gitignore use_gitignore tree))
             (walk (effective_ignore ignore_patterns) target_dir "" tree).
Proof.
  intros Hscan. apply scan_directory_spec in Hscan.
  unfold all_files. rewrite (folders_names _ _ _ _ _ Hscan).
  apply flat_map_kept_names_filter.
Qed.

Lemma manifest_lists_kept_files_in_order_witness :
  exists res,
    scan_directory (H:=Sample.runtime) 0 Sample.mixed_tree "proj"
      None true false = Ok res /\
    map (fun r => (folder r, file_name r)) (all_files res)
    = [("", "README"); ("", "secret.key"); ("", "gone.txt");
       ("src", "main.py"); ("src/pkg", "mod.py")].
Proof.
  eexists. split; [vm_compute; reflexivity|].
  rewrite (manifest_lists_kept_files_in_order (H:=Sample.runtime) 0
             Sample.mixed_tree "proj" None true false _
             ltac:(vm_compute; reflexivity)).
  vm_compute. reflexivity.
Defined.

Lemma load_gitignore_disabled tree : load_gitignore false tree = [].
Proof.
  unfold load_gitignore.
  destruct (List.find _ (d_files tree)) as [[name node]|]; reflexivity.
Qed.

(** With the ignore file switched off, every file of a visited directory
    that the substring list lets through is recorded, whatever the ignore
    file says. *)
Theorem without_gitignore_every_unfiltered_file_recorded `{Runtime}
    fuel tree target_dir ignore_patterns skip_hash res item entry :
  scan_directory fuel tree target_dir ignore_patterns false skip_hash
    = Ok res ->
  In item (walk (effective_ignore ignore_patterns) target_dir "" tree) ->
  any_pattern_in (effective_ignore ignore_patterns) (w_root item) = false ->
  In entry (w_files item) ->
  any_pattern_in (effective_ignore ignore_patterns) (fst entry) = false ->
  exists r,
    In r (all_files res) /\ folder r = w_rel item /\ file_name r = fst entry.
Proof.
  intros Hscan Hitem Hroot Hentry Hname. apply scan_directory_spec in Hscan.
  rewrite load_gitignore_disabled in Hscan.
  assert (Hkept : In entry (kept_files (effective_ignore ignore_patterns) []
                              item)).
  { unfold kept_files. rewrite Hroot. apply filter_In. split; [exact Hentry|].
    unfold survives. now rewrite Hname. }
  destruct (folder_records_complete _ _ _ _ _ _ _ Hscan Hitem Hkept)
    as (r & Hr & Hof).
  apply record_of_fields in Hof as (Hfolder & Hfile & _). eauto.
Qed.

Lemma without_gitignore_every_unfiltered_file_recorded_witness :
  exists res r,
    scan_directory (H:=Sample.runtime) 0 Sample.tmp_tree "proj" None
      false false = Ok res /\
    In r (all_files res) /\ folder r = "" /\ file_name r = "other.tmp".
Proof.
  assert (Hscan : exists res,
    scan_directory (H:=Sample.runtime) 0 Sample.tmp_tree "proj" None
      false false = Ok res) by (eexists; vm_compute; reflexivity).
  destruct Hscan as [res Hscan]. exists res.
  destruct (without_gitignore_every_unfiltered_file_recorded
              (H:=Sample.runtime) 0 Sample.tmp_tree "proj" None false res
              {| w_root := "proj"; w_rel := "";
                 w_files := d_files Sample.tmp_tree |}
              ("other.tmp", Sample.readable "other") Hscan)
    as (r & Hr & Hfolder & Hname);
    [left; reflexivity | reflexivity | vm_compute; tauto | reflexivity |].
  exists r. auto.
Defined.

(** ** Line endings of the ignore file *)

Lemma text_lines_from_crlf text :
  all_chars (fun a => negb (Ascii.eqb a (ascii_of_nat 13))) text = true ->
  forall cur,
    text_lines_from cur (with_crlf text) = text_lines_from cur text.
Proof.
  unfold with_crlf.
  induction text as [|c text IH]; intros Hcr cur; [reflexivity|].
  simpl in Hcr. apply andb_true_iff in Hcr as [Hc Hcr].
  apply negb_true_iff in Hc.
  simpl PyStr.replace. destruct (Ascii.eqb c Re.newline) eqn:Hnl.
  - rewrite !append_cons, append_nil. simpl. rewrite Hnl.
    now rewrite IH.
  - simpl. rewrite Hnl, Hc. now rewrite IH.
Qed.

(** An ignore file saved with carriage return and line feed at the end of
    each line yields the same patterns as the same file saved with line
    feeds. *)
Theorem crlf_ignore_file_parses_alike text :
  all_chars (fun a => negb (Ascii.eqb a (ascii_of_nat 13))) text = true ->
  parse_gitignore (text_lines (with_crlf text))
  = parse_gitignore (text_lines text).
Proof.
  intros Hcr. unfold text_lines. now rewrite text_lines_from_crlf.
Qed.

Lemma crlf_ignore_file_parses_alike_witness :
  all_chars (fun a => negb (Ascii.eqb a (ascii_of_nat 13)))
    ("*.log" +:+ Sample.lf +:+ "build/" +:+ Sample.lf) = true /\
  parse_gitignore
    (text_lines (with_crlf ("*.log" +:+ Sample.lf +:+ "build/" +:+ Sample.lf)))
  = parse_gitignore
      (text_lines ("*.log" +:+ Sample.lf +:+ "build/" +:+ Sample.lf)).
Proof.
  split; [reflexivity|].
  apply (crlf_ignore_file_parses_alike
           ("*.log" +:+ Sample.lf +:+ "build/" +:+ Sample.lf)).
  reflexivity.
Defined.

(** ** The further properties on sample inputs *)

Lemma recorded_files_pass_filters_witness :
  exists res,
    scan_directory (H:=Sample.runtime) 0 Sample.mixed_tree "proj"
      None true false = Ok res /\
    forall r,
      In r (all_files res) ->
      any_pattern_in (effective_ignore None) (file_name r) = false /\
      forall file_path,
        is_ignored file_path (rel_file_path r)
          (load_gitignore true Sample.mixed_tree) = Ok false.
Proof.
  eexists. split; [vm_compute; reflexivity|].
  apply (recorded_files_pass_filters (H:=Sample.runtime) 0 Sample.mixed_tree
           "proj" None true false).
  vm_compute. reflexivity.
Defined.

Lemma record_folder_is_folder_path_witness :
  exists res,
    scan_directory (H:=Sample.runtime) 0 Sample.mixed_tree "proj"
      None true false = Ok res /\
    forall f r, In f (folders res) -> In r (files f) -> folder r = path f.
Proof.
  eexists. split; [vm_compute; reflexivity|].
  apply (record_folder_is_folder_path (H:=Sample.runtime) 0 Sample.mixed_tree
           "proj" None true false).
  vm_compute. reflexivity.
Defined.

Lemma record_shape_witness :
  exists res,
    scan_directory (H:=Sample.runtime) 0 Sample.mixed_tree "proj"
      None true false = Ok res /\
    forall r,
      In r (all_files res) ->
      last_reviewed (metadata r) = "" /\
      file_type r = file_type_of (H:=Sample.runtime) (file_name r) /\
      (normal_record r \/ degraded_record r).
Proof.
  eexists. split; [vm_compute; reflexivity|].
  apply (record_shape (H:=Sample.runtime) 0 Sample.mixed_tree
           "proj" None true false).
  vm_compute. reflexivity.
Defined.

Lemma readable_file_record_witness :
  exists res r,
    scan_directory (H:=Sample.runtime) 0 Sample.mixed_tree "proj"
      None true false = Ok res /\
    In r (all_files res) /\
    folder r = "src" /\
    file_name r = "main.py" /\
    hash (metadata r) = "sha256:main" /\
    size_bytes (metadata r) = 4.
Proof.
  assert (Hscan : exists res,
    scan_directory (H:=Sample.runtime) 0 Sample.mixed_tree "proj"
      None true false = Ok res) by (eexists; vm_compute; reflexivity).
  destruct Hscan as [res Hscan]. exists res.
  destruct (readable_file_record (H:=Sample.runtime) 0 Sample.mixed_tree
              "proj" None true res
              {| w_root := "proj/src"; w_rel := "src";
                 w_files := [("main.py", Sample.readable "main");
                             ("x.log", Sample.readable "x")] |}
              ("main.py", Sample.readable "main") (Sample.stats 4) "main"
              Hscan)
    as (r & Hr & Hfolder & Hname & Hhash & Hsize & _);
    [vm_compute; tauto | vm_compute; tauto | reflexivity | reflexivity |].
  exists r. repeat split; assumption.
Defined.

(** C10 as stated: a scan root given by a relative path, whose absolute
    path holds the ignore substring [venv], is scanned as usual. *)
Lemma relative_root_under_venv_is_scanned :
  any_pattern_in (effective_ignore None)
    (abspath (Runtime := runtime_under_venv) "proj") = true /\
  exists res,
    scan_directory (H:=runtime_under_venv) 0 Sample.mixed_tree "proj"
      None true false = Ok res /\
    target_directory (scan_info res) = "/home/u/venv/proj" /\
    total_folders (scan_info res) = 3 /\
    total_files (scan_info res) = 5 /\
    map path (folders res) = [""; "src"; "src/pkg"].
Proof.
  split; [reflexivity|]. eexists.
  split; [vm_compute; reflexivity|]. repeat split; reflexivity.
Qed.
